(** * Meme-coin bot: the decision and position-tracking engine of [src/index.js]

    A shallow embedding of the ranking pass ([analyzeTweets]), the market
    data lookup ([getCoinData]), the two trading operations ([buyCoin],
    [sellCoin]) and the periodic cycle ([runDailyOperations]), followed by
    the properties of the specification that concern them.

    Conventions of the embedding.
    - JavaScript numbers are rationals ([Q]); every number the engine
      compares is a price, a market capitalisation or a sentiment score, and
      the only arithmetic is one product, one difference and comparisons.
    - JavaScript strings are [string]s; [toLowerCase] acts on the letters
      [A]-[Z], which is all the deny-list test and the request key look at.
    - The module-level variables [trackedCoins] and [dailyOperations] are
      fields of an explicit [State]; a [Map] is an association list in
      insertion order, as [for ... of] walks it.
    - The outside world is an input: the result of the Twitter search of a
      cycle is a [SearchResult], and the market data service is an [Oracle]
      answering the n-th HTTP request.  Logging and Telegram messages have no
      effect on the engine's state and are left out.
    - [async] functions are computations in a state-and-exception monad
      [Js]; [try]/[catch] is [tryCatch], and state changes made before a
      [throw] persist, as in the source. *)

From Stdlib Require Import List String Ascii Bool Arith Lia.
From Stdlib Require Import QArith.
From Stdlib Require Import Sorting.Sorted Sorting.Permutation.
Import ListNotations.

Local Open Scope string_scope.
Local Open Scope Q_scope.

(** ** Numbers *)

Module Num.

(** [a < b], [a > b], [a >= b], [a <= b] on JavaScript numbers. *)
Definition ltb (a b : Q) : bool := negb (Qle_bool b a).
Definition gtb (a b : Q) : bool := ltb b a.
Definition leb (a b : Q) : bool := Qle_bool a b.
Definition geb (a b : Q) : bool := Qle_bool b a.

End Num.

(** ** Strings *)

Module Str.

Definition isUpper (c : ascii) : bool :=
  (65 <=? nat_of_ascii c)%nat && (nat_of_ascii c <=? 90)%nat.

Definition lowerChar (c : ascii) : ascii :=
  if isUpper c then ascii_of_nat (nat_of_ascii c + 32) else c.

(** [s.toLowerCase()] *)
Fixpoint toLowerCase (s : string) : string :=
  match s with
  | EmptyString => EmptyString
  | String c r => String (lowerChar c) (toLowerCase r)
  end.

(** [s.startsWith(p)] *)
Fixpoint startsWith (s p : string) {struct p} : bool :=
  match p, s with
  | EmptyString, _ => true
  | String _ _, EmptyString => false
  | String a p', String b s' => Ascii.eqb a b && startsWith s' p'
  end.

(** [s.includes(p)] *)
Fixpoint includes (s p : string) : bool :=
  startsWith s p ||
  match s with
  | EmptyString => false
  | String _ r => includes r p
  end.

(** [s.replace('$', '')]: a string pattern replaces its first occurrence. *)
Fixpoint replaceDollar (s : string) : string :=
  match s with
  | EmptyString => EmptyString
  | String c r => if Ascii.eqb c "$" then r else String c (replaceDollar r)
  end.

(** The longest run of [[A-Z]] at the head of [s]. *)
Fixpoint upperRun (s : string) : string :=
  match s with
  | EmptyString => EmptyString
  | String c r => if isUpper c then String c (upperRun r) else EmptyString
  end.

(** [s.match(/\$[A-Z]+/)]: the leftmost [$] followed by at least one capital
    letter, with the whole (greedy) run; [None] is JavaScript's [null]. *)
Fixpoint matchCoin (s : string) : option string :=
  match s with
  | EmptyString => None
  | String c r =>
      if Ascii.eqb c "$"
      then match upperRun r with
           | EmptyString => matchCoin r
           | run => Some (String "$" run)
           end
      else matchCoin r
  end.

End Str.

(** ** The ranker *)

Record Tweet := { text : string }.

(** What [twitterClient.v2.search('#memeCoin')] and the iteration over its
    pages deliver: the posts in order, or an exception. *)
Inductive SearchResult :=
| SearchFailed
| SearchOk (tweets : list Tweet).

Record Candidate := {
  coin : string;
  sentiment : Q;
  tweet : string
}.

Section Ranker.

(** [sentimentAnalyzer.getSentiment(tokenizer.tokenize(text))]: the AFINN
    scorer of the [natural] package, a function of the text. *)
Variable getSentiment : string -> Q.

(** The guard of the loop body: the post is skipped. *)
Definition suspicious (t : Tweet) : bool :=
  Num.ltb (getSentiment (text t)) 0
  || Str.includes (Str.toLowerCase (text t)) "scam"
  || Str.includes (Str.toLowerCase (text t)) "rug".

(** One iteration of the loop: what it pushes on [potentialCoins]. *)
Definition candidateOf (t : Tweet) : list Candidate :=
  if suspicious t then []
  else match Str.matchCoin (text t) with
       | Some c => [ {| coin := c; sentiment := getSentiment (text t);
                        tweet := text t |} ]
       | None => []
       end.

(** [potentialCoins] when the loop ends. *)
Definition potentialCoins (tweets : list Tweet) : list Candidate :=
  flat_map candidateOf tweets.

(** The comparator [(a, b) => b.sentiment - a.sentiment]. *)
Definition compareFn (a b : Candidate) : Q := sentiment b - sentiment a.

(** [Array.prototype.sort(compareFn)].  ECMAScript fixes the result for a
    consistent comparator: the stable arrangement in which [a] stands before
    [b] whenever [compareFn a b < 0].  Insertion from the right computes
    it: an element passes the elements that must strictly precede it and
    stops in front of the first one that need not. *)
Fixpoint sortInsert (x : Candidate) (l : list Candidate) : list Candidate :=
  match l with
  | [] => [x]
  | y :: r => if Num.gtb (compareFn x y) 0
              then y :: sortInsert x r
              else x :: y :: r
  end.

Fixpoint sort (l : list Candidate) : list Candidate :=
  match l with
  | [] => []
  | x :: r => sortInsert x (sort r)
  end.

Definition analyzeTweets (res : SearchResult) : list Candidate :=
  match res with
  | SearchOk tweets => sort (potentialCoins tweets)
  | SearchFailed => []
  end.

End Ranker.

(** ** Engine state *)

(** The value stored per coin: [{ buyPrice, targetMultiplier, amount }]. *)
Record Position := {
  buyPrice : Q;
  targetMultiplier : Q;
  amount : Q
}.

(** [Map<string, Position>]: entries in insertion order. *)
Module JsMap.

Definition t := list (string * Position).

(** [m.get(k)]; [None] is [undefined]. *)
Fixpoint get (m : t) (k : string) : option Position :=
  match m with
  | [] => None
  | (k', v) :: r => if String.eqb k k' then Some v else get r k
  end.

(** [m.set(k, v)]: an existing key keeps its place and takes the new value,
    a new key goes to the end. *)
Fixpoint set (m : t) (k : string) (v : Position) : t :=
  match m with
  | [] => [(k, v)]
  | (k', v') :: r => if String.eqb k k' then (k', v) :: r
                     else (k', v') :: set r k v
  end.

(** [m.delete(k)] *)
Fixpoint delete (m : t) (k : string) : t :=
  match m with
  | [] => []
  | (k', v') :: r => if String.eqb k k' then r else (k', v') :: delete r k
  end.

(** The keys [for (const [coin] of m)] meets. *)
Definition keys (m : t) : list string := map fst m.

Definition has (m : t) (k : string) : bool :=
  match get m k with Some _ => true | None => false end.

End JsMap.

Definition MAX_DAILY_OPERATIONS : nat := 5.
Definition TARGET_MULTIPLIER_MIN : Q := 2.
Definition TARGET_MULTIPLIER_MAX : Q := 5.
Definition MARKET_CAP_THRESHOLD : Q := 5000.

(** The module-level variables, and the history of the requests sent to the
    market data service (oldest first), which is the engine's clock. *)
Record State := {
  trackedCoins : JsMap.t;
  dailyOperations : nat;
  requests : list string
}.

(** The state when the process starts. *)
Definition initial : State :=
  {| trackedCoins := []; dailyOperations := 0; requests := [] |}.

(** ** The market data service *)

Module Dex.

(** The first element of [response.data.pairs]; a field that is missing (or
    falsy) is [None].  The fields are taken to be numbers: a field of another
    type, which the code would keep and compare as it stands, is outside the
    model, and the statements about prices and capitalisations are about
    numeric answers. *)
Record Pair := {
  priceUsd : option Q;
  marketCap : option Q
}.

(** What [axios.get] meets: an exception, or a body whose
    [pairs?.[0]] is undefined ([None]) or a pair. *)
Inductive Response :=
| RequestFailed
| Pairs (first : option Pair).

End Dex.

(** The answer to the n-th request (counted from 0), for the token in its
    URL. *)
Definition Oracle := nat -> string -> Dex.Response.

(** What [getCoinData] returns when it does not return [null]. *)
Record CoinData := {
  price : Q;
  marketCap : Q
}.

(** ** Computations *)

Inductive Exn := NetworkError | TypeError.

Inductive Outcome (A : Type) :=
| Ok (a : A)
| Thrown (e : Exn).

Arguments Ok {A} a.
Arguments Thrown {A} e.

Definition Js (A : Type) := State -> Outcome A * State.

Definition ret {A} (a : A) : Js A := fun s => (Ok a, s).

Definition throw {A} (e : Exn) : Js A := fun s => (Thrown e, s).

Definition bind {A B} (c : Js A) (k : A -> Js B) : Js B :=
  fun s => match c s with
           | (Ok a, s') => k a s'
           | (Thrown e, s') => (Thrown e, s')
           end.

(** [try { body } catch (error) { handler }] *)
Definition tryCatch {A} (body : Js A) (handler : Exn -> Js A) : Js A :=
  fun s => match body s with
           | (Ok a, s') => (Ok a, s')
           | (Thrown e, s') => handler e s'
           end.

Notation "x <- c ;; k" := (bind c (fun x => k))
  (at level 61, c at next level, right associativity).
Notation "c ;;; k" := (bind c (fun _ => k))
  (at level 61, right associativity).

(** The state a computation leaves. *)
Definition exec {A} (c : Js A) (s : State) : State := snd (c s).

(** The value a computation returns. *)
Definition result {A} (c : Js A) (s : State) : Outcome A := fst (c s).

(** Reads and writes of the module-level variables. *)
Definition readTracked : Js JsMap.t := fun s => (Ok (trackedCoins s), s).

Definition readOperations : Js nat := fun s => (Ok (dailyOperations s), s).

(** [trackedCoins.set(coin, v)] *)
Definition trackedSet (k : string) (v : Position) : Js unit :=
  fun s => (Ok tt, {| trackedCoins := JsMap.set (trackedCoins s) k v;
                      dailyOperations := dailyOperations s;
                      requests := requests s |}).

(** [trackedCoins.delete(coin)] *)
Definition trackedDelete (k : string) : Js unit :=
  fun s => (Ok tt, {| trackedCoins := JsMap.delete (trackedCoins s) k;
                      dailyOperations := dailyOperations s;
                      requests := requests s |}).

(** [const { buyPrice, targetMultiplier, amount } = trackedCoins.get(coin)]:
    destructuring [undefined] throws a [TypeError]. *)
Definition trackedGet (k : string) : Js Position :=
  fun s => match JsMap.get (trackedCoins s) k with
           | Some p => (Ok p, s)
           | None => (Thrown TypeError, s)
           end.

(** [dailyOperations++] *)
Definition incrOperations : Js unit :=
  fun s => (Ok tt, {| trackedCoins := trackedCoins s;
                      dailyOperations := S (dailyOperations s);
                      requests := requests s |}).

(** [x || 0] on a field of the response. *)
Definition orZero (x : option Q) : Q :=
  match x with Some q => q | None => 0 end.

Section Engine.

Variable getSentiment : string -> Q.
Variable market : Oracle.

(** [await axios.get(url)] followed by [response.data.pairs?.[0]]: the
    request is recorded, and the service answers or the call throws. *)
Definition axiosGet (token : string) : Js (option Dex.Pair) :=
  fun s =>
    let s' := {| trackedCoins := trackedCoins s;
                 dailyOperations := dailyOperations s;
                 requests := (requests s ++ [token])%list |} in
    match market (List.length (requests s)) token with
    | Dex.RequestFailed => (Thrown NetworkError, s')
    | Dex.Pairs first => (Ok first, s')
    end.

Definition getCoinData (coin : string) : Js (option CoinData) :=
  tryCatch
    (data <- axiosGet (Str.replaceDollar (Str.toLowerCase coin)) ;;
     match data with
     | None => ret None
     | Some d =>
         let price := orZero (Dex.priceUsd d) in
         let marketCap := orZero (Dex.marketCap d) in
         ret (Some {| price := price; marketCap := marketCap |})
     end)
    (fun _ => ret None).

Definition buyCoin (coin : string) (amountInSol : Q) : Js bool :=
  tryCatch
    (coinData <- getCoinData coin ;;
     match coinData with
     | None => ret false
     | Some d =>
         if Num.gtb (marketCap d) (MARKET_CAP_THRESHOLD * 1.5)
            || Num.ltb (marketCap d) (MARKET_CAP_THRESHOLD * 0.5)
         then ret false
         else if Num.gtb (price d) 0.01
         then ret false
         else
           trackedSet coin {| buyPrice := price d;
                              targetMultiplier := TARGET_MULTIPLIER_MIN;
                              amount := amountInSol |} ;;;
           incrOperations ;;;
           ret true
     end)
    (fun _ => ret false).

(** The [try] block of [sellCoin]. *)
Definition sellCoinTry (coin : string) : Js bool :=
  coinData <- getCoinData coin ;;
  match coinData with
  | None => ret false
  | Some d =>
      let currentPrice := price d in
      p <- trackedGet coin ;;
      if Num.geb currentPrice (buyPrice p * targetMultiplier p)
      then trackedDelete coin ;;; incrOperations ;;; ret true
      else ret false
  end.

Definition sellCoin (coin : string) : Js bool :=
  tryCatch (sellCoinTry coin) (fun _ => ret false).

(** The test that guards the call of [buyCoin] in [runDailyOperations]. *)
Definition admitted (d : CoinData) : bool :=
  Num.gtb (price d) 0 && Num.ltb (price d) 0.01
  && Num.geb (marketCap d) (MARKET_CAP_THRESHOLD * 0.5)
  && Num.leb (marketCap d) (MARKET_CAP_THRESHOLD * 1.5).

(** [for (const [coin] of trackedCoins) { const sold = await sellCoin(coin) }].
    The body removes no entry but the one being visited and adds none, so
    the iterator meets the keys the map holds when the loop starts, in
    insertion order; [todo] is what is left of them. *)
Fixpoint sweep (todo : list string) : Js unit :=
  match todo with
  | [] => ret tt
  | coin :: rest => sold <- sellCoin coin ;; sweep rest
  end.

Definition runDailyOperations (res : SearchResult) : Js unit :=
  ops <- readOperations ;;
  if (MAX_DAILY_OPERATIONS * 2 <=? ops)%nat then ret tt
  else
    match analyzeTweets getSentiment res with
    | [] => ret tt
    | topCoin :: _ =>
        coinData <- getCoinData (Str.replaceDollar (coin topCoin)) ;;
        match coinData with
        | None => ret tt
        | Some d =>
            (if admitted d
             then bought <- buyCoin (Str.replaceDollar (coin topCoin)) 0.1 ;;
                  ret tt
             else ret tt) ;;;
            tracked <- readTracked ;;
            sweep (JsMap.keys tracked)
        end
    end.

(** The cycle as the specification words it, for comparison: the sweep
    walks the positions tracked before the acquisition phase. *)
Definition runDailyOperations_preA (res : SearchResult) : Js unit :=
  ops <- readOperations ;;
  if (MAX_DAILY_OPERATIONS * 2 <=? ops)%nat then ret tt
  else
    match analyzeTweets getSentiment res with
    | [] => ret tt
    | topCoin :: _ =>
        before <- readTracked ;;
        coinData <- getCoinData (Str.replaceDollar (coin topCoin)) ;;
        match coinData with
        | None => ret tt
        | Some d =>
            (if admitted d
             then bought <- buyCoin (Str.replaceDollar (coin topCoin)) 0.1 ;;
                  ret tt
             else ret tt) ;;;
            sweep (JsMap.keys before)
        end
    end.

(** The timer: one cycle per search result, one after the other. *)
Fixpoint runCycles (feed : list SearchResult) (s : State) : State :=
  match feed with
  | [] => s
  | res :: later => runCycles later (exec (runDailyOperations res) s)
  end.

(** The states the engine is in between two cycles. *)
Inductive reachable : State -> Prop :=
| reachable_initial : reachable initial
| reachable_cycle s res :
    reachable s -> reachable (exec (runDailyOperations res) s).

End Engine.

(** ** Vocabulary of the specification *)

(** Two characters that differ at most by case. *)
Definition sameLetter (a b : ascii) : Prop :=
  a = b
  \/ (Str.isUpper a = true /\ b = Str.lowerChar a)
  \/ (Str.isUpper b = true /\ a = Str.lowerChar b).

(** Two strings that differ at most by case. *)
Fixpoint equalsIgnoreCase (a b : string) : Prop :=
  match a, b with
  | EmptyString, EmptyString => True
  | String x a', String y b' => sameLetter x y /\ equalsIgnoreCase a' b'
  | _, _ => False
  end.

(** [s] contains [term], case-insensitively. *)
Definition containsIgnoreCase (s term : string) : Prop :=
  exists before mid after,
    s = before ++ mid ++ after /\ equalsIgnoreCase mid term.

(** A string without capital letters. *)
Fixpoint lowercase (s : string) : Prop :=
  match s with
  | EmptyString => True
  | String c r => Str.isUpper c = false /\ lowercase r
  end.

(** The deny-list. *)
Definition denyList : list string := ["scam"; "rug"].

(** The order of the ranker's output: the higher score first. *)
Definition descending (a b : Candidate) : Prop := sentiment b <= sentiment a.

(** The candidates, and the posts, of a given score. *)
Definition scored (q : Q) (c : Candidate) : bool := Qeq_bool (sentiment c) q.

Definition postScored (getSentiment : string -> Q) (q : Q) (t : Tweet) : bool :=
  Qeq_bool (getSentiment (text t)) q.

(** A post the ranker must leave out: negative, or naming a deny-list term. *)
Definition excluded (getSentiment : string -> Q) (t : Tweet) : Prop :=
  getSentiment (text t) < 0
  \/ exists term, In term denyList /\ containsIgnoreCase (text t) term.

(** The admission predicate of the Market Data Gate. *)
Definition admission (d : CoinData) : Prop :=
  0 < price d /\ price d < 0.01
  /\ 2500 <= marketCap d /\ marketCap d <= 7500.

(** The request token of a coin: what [getCoinData] puts in the URL. *)
Definition token (coin : string) : string :=
  Str.replaceDollar (Str.toLowerCase coin).

(** The service has no data: the call fails or the body has no pair. *)
Definition unavailable (r : Dex.Response) : Prop :=
  r = Dex.RequestFailed \/ r = Dex.Pairs None.

(** The snapshot [getCoinData] builds from a pair. *)
Definition snapshot (d : Dex.Pair) : CoinData :=
  {| price := orZero (Dex.priceUsd d); marketCap := orZero (Dex.marketCap d) |}.

(** What [getCoinData] returns in state [s]: the snapshot of the answer to
    the next request, [None] for [null]. *)
Definition answer (market : Oracle) (s : State) (coin : string)
  : option CoinData :=
  match market (List.length (requests s)) (token coin) with
  | Dex.Pairs (Some d) => Some (snapshot d)
  | _ => None
  end.

(** The state once one more request, for [coin], has been sent. *)
Definition asked (coin : string) (s : State) : State :=
  {| trackedCoins := trackedCoins s;
     dailyOperations := dailyOperations s;
     requests := (requests s ++ [token coin])%list |}.

(** The snapshots the two guards of [buyCoin] let through. *)
Definition passes (d : CoinData) : bool :=
  negb (Num.gtb (marketCap d) (MARKET_CAP_THRESHOLD * 1.5)
        || Num.ltb (marketCap d) (MARKET_CAP_THRESHOLD * 0.5))
  && negb (Num.gtb (price d) 0.01).

(** The position [buyCoin] stores. *)
Definition opened (d : CoinData) (amountInSol : Q) : Position :=
  {| buyPrice := price d;
     targetMultiplier := TARGET_MULTIPLIER_MIN;
     amount := amountInSol |}.

(** What a cycle keeps true: the keys are distinct, there are no more
    positions than operations, and the count stays within twice the limit. *)
Definition steady (s : State) : Prop :=
  NoDup (JsMap.keys (trackedCoins s))
  /\ (List.length (trackedCoins s) <= dailyOperations s)%nat
  /\ (dailyOperations s <= 20)%nat.

(** What every stored position looks like: the minimum multiplier, the
    fixed stake, and an entry price that passed the ceiling test. *)
Definition wellOpened (p : Position) : Prop :=
  targetMultiplier p = TARGET_MULTIPLIER_MIN
  /\ amount p = 0.1
  /\ buyPrice p <= 0.01.

(** ** Scenarios *)

Module Scenario.

(** A scorer that finds every post mildly positive. *)
Definition positive (_ : string) : Q := 1.

(** A scorer that frowns on the word "bad" and likes the word "moon". *)
Definition mood (s : string) : Q :=
  if Str.includes s "bad" then -3
  else if Str.includes s "moon" then 4 else 1.

Definition quote (p cap : Q) : Dex.Response :=
  Dex.Pairs (Some {| Dex.priceUsd := Some p; Dex.marketCap := Some cap |}).

(** A market that always quotes the same price, at a capitalisation of 5000. *)
Definition flat (p : Q) : Oracle := fun _ _ => quote p 5000.

(** A market that quotes [p] for the first [n] requests and [p'] afterwards. *)
Definition jump (n : nat) (p p' : Q) : Oracle :=
  fun i _ => if (i <? n)%nat then quote p 5000 else quote p' 5000.

(** A market whose second answer lacks the price, and which is unreachable
    from the third request on. *)
Definition gap : Oracle :=
  fun i _ => match i with
             | 0%nat => quote 0.005 5000
             | 1%nat => Dex.Pairs (Some {| Dex.priceUsd := None;
                                           Dex.marketCap := Some 5000 |})
             | _ => Dex.RequestFailed
             end.

(** A market whose answers never carry a price. *)
Definition unpriced : Oracle :=
  fun _ _ => Dex.Pairs (Some {| Dex.priceUsd := None;
                                Dex.marketCap := Some 5000 |}).

(** A market that is down. *)
Definition down : Oracle := fun _ _ => Dex.RequestFailed.

Definition post (s : string) : SearchResult := SearchOk [ {| text := s |} ].

Definition foo : Position :=
  {| buyPrice := 0.005; targetMultiplier := 2; amount := 0.1 |}.

(** The engine holding one position, FOO bought at 0.005. *)
Definition holdingFoo : State :=
  {| trackedCoins := [("FOO", foo)]; dailyOperations := 1;
     requests := ["foo"; "foo"; "foo"] |}.

Definition sixPosts : list SearchResult :=
  [post "$A"; post "$B"; post "$C"; post "$D"; post "$E"; post "$F"].

Definition tenPosts : list SearchResult :=
  (sixPosts ++ [post "$G"; post "$H"; post "$I"; post "$J"])%list.

End Scenario.

(** ** Further vocabulary *)

(** A string of capital letters. *)
Fixpoint capitals (s : string) : Prop :=
  match s with
  | EmptyString => True
  | String c r => Str.isUpper c = true /\ capitals r
  end.

(** A ticker: capital letters, at least one. *)
Definition ticker (s : string) : Prop := s <> EmptyString /\ capitals s.

(** [s] holds no [$] that is followed by a capital letter. *)
Definition noSymbol (s : string) : Prop :=
  forall a c b, s = a ++ String "$" (String c b) -> Str.isUpper c = false.

(** [s] does not begin with a capital letter. *)
Definition noCapitalAhead (s : string) : Prop :=
  forall c r, s = String c r -> Str.isUpper c = false.

(** [trackedCoins.size] *)
Definition size (m : JsMap.t) : nat := List.length m.

(** The profit in the message of a sale, before [toFixed(2)]:
    [(currentPrice - buyPrice) / buyPrice * 100]. *)
Definition profitPercent (currentPrice buyPrice : Q) : Q :=
  (currentPrice - buyPrice) / buyPrice * 100.


(** * Properties *)

(** ** Comparisons *)

Lemma ltb_lt a b : Num.ltb a b = true <-> a < b.
Proof.
  unfold Num.ltb. rewrite negb_true_iff, <- not_true_iff_false, Qle_bool_iff.
  split; [apply Qnot_le_lt | apply Qlt_not_le].
Qed.

Lemma gtb_gt a b : Num.gtb a b = true <-> b < a.
Proof. apply ltb_lt. Qed.

Lemma leb_le a b : Num.leb a b = true <-> a <= b.
Proof. apply Qle_bool_iff. Qed.

Lemma geb_ge a b : Num.geb a b = true <-> b <= a.
Proof. apply Qle_bool_iff. Qed.

Lemma ltb_ge a b : Num.ltb a b = false <-> b <= a.
Proof.
  unfold Num.ltb. rewrite negb_false_iff. apply Qle_bool_iff.
Qed.

Lemma gtb_le a b : Num.gtb a b = false <-> a <= b.
Proof. apply ltb_ge. Qed.

Lemma geb_lt a b : Num.geb a b = false <-> a < b.
Proof.
  unfold Num.geb. rewrite <- not_true_iff_false, Qle_bool_iff.
  split; [apply Qnot_le_lt | apply Qlt_not_le].
Qed.

(** ** Strings *)

Lemma startsWith_iff s p :
  Str.startsWith s p = true <-> exists r, s = p ++ r.
Proof.
  revert s. induction p as [|a p IH]; intros s; simpl.
  - split; [intros _; now exists s | reflexivity].
  - destruct s as [|b s].
    + split; [discriminate | intros [r H]; discriminate].
    + rewrite andb_true_iff, Ascii.eqb_eq, IH. split.
      * intros [-> [r ->]]. now exists r.
      * intros [r H]. injection H as -> ->. split; [reflexivity | now exists r].
Qed.

Lemma includes_iff s p :
  Str.includes s p = true <-> exists a b, s = a ++ p ++ b.
Proof.
  induction s as [|c s IH].
  - simpl. rewrite orb_false_r, startsWith_iff. split.
    + intros [r H]. now exists "", r.
    + intros [a [b H]]. destruct a; [now exists b | discriminate].
  - cbn [Str.includes]. rewrite orb_true_iff, startsWith_iff, IH. split.
    + intros [[r H] | [a [b H]]].
      * now exists "", r.
      * exists (String c a), b. simpl. now rewrite H.
    + intros [a [b H]]. destruct a as [|x a]; simpl in H.
      * left. now exists b.
      * right. injection H as _ H. now exists a, b.
Qed.

Lemma toLowerCase_app a b :
  Str.toLowerCase (a ++ b) = Str.toLowerCase a ++ Str.toLowerCase b.
Proof.
  induction a as [|c a IH]; simpl; [reflexivity | now rewrite IH].
Qed.

Lemma toLowerCase_split s a' b' :
  Str.toLowerCase s = a' ++ b' ->
  exists a b, s = a ++ b /\ Str.toLowerCase a = a' /\ Str.toLowerCase b = b'.
Proof.
  revert s. induction a' as [|c a' IH]; intros s H; simpl in H.
  - exists "", s. auto.
  - destruct s as [|x s]; [discriminate |]. simpl in H.
    injection H as Hc H. destruct (IH _ H) as [a [b [-> [Ha Hb]]]].
    exists (String x a), b. simpl. now rewrite Hc, Ha, Hb.
Qed.

Lemma lowerChar_fixed c : Str.isUpper c = false -> Str.lowerChar c = c.
Proof. unfold Str.lowerChar. now intros ->. Qed.

(** Lower-casing and comparing is comparing up to case, when the term is
    written in small letters. *)
Lemma equalsIgnoreCase_lower m term :
  lowercase term ->
  (equalsIgnoreCase m term <-> Str.toLowerCase m = term).
Proof.
  revert m. induction term as [|d term IH]; intros m Hl.
  - destruct m; simpl; split; auto; try discriminate; tauto.
  - destruct Hl as [Hd Hl]. destruct m as [|c m]; simpl.
    + split; [tauto | discriminate].
    + rewrite (IH m Hl). split.
      * intros [[-> | [[_ ->] | [Hu _]]] ->].
        -- now rewrite (lowerChar_fixed _ Hd).
        -- reflexivity.
        -- congruence.
      * intros H. injection H as Hc Hm. split; [| exact Hm].
        unfold sameLetter. destruct (Str.isUpper c) eqn:Hu.
        -- right; left. auto.
        -- left. now rewrite <- Hc, (lowerChar_fixed _ Hu).
Qed.

Lemma includes_lower_iff s term :
  lowercase term ->
  (Str.includes (Str.toLowerCase s) term = true <-> containsIgnoreCase s term).
Proof.
  intros Hl. rewrite includes_iff. unfold containsIgnoreCase. split.
  - intros [a' [b' H]].
    destruct (toLowerCase_split _ _ _ H) as [a [r [-> [_ Hr]]]].
    destruct (toLowerCase_split _ _ _ Hr) as [m [b [-> [Hm _]]]].
    exists a, m, b. split; [reflexivity |].
    now apply equalsIgnoreCase_lower.
  - intros [a [m [b [-> Hm]]]]. apply equalsIgnoreCase_lower in Hm; [| exact Hl].
    exists (Str.toLowerCase a), (Str.toLowerCase b).
    now rewrite !toLowerCase_app, Hm.
Qed.

(** ** The ranker *)

Section RankerFacts.

Variable getSentiment : string -> Q.


Lemma lowercase_denyList term : In term denyList -> lowercase term.
Proof.
  intros [<- | [<- | []]]; simpl; repeat split.
Qed.

(** The guard of the loop is the exclusion rule of the specification. *)
Lemma suspicious_iff t : suspicious getSentiment t = true <-> excluded getSentiment t.
Proof.
  unfold suspicious, excluded.
  rewrite !orb_true_iff, ltb_lt.
  rewrite !includes_lower_iff by (apply lowercase_denyList; simpl; auto).
  split.
  - intros [[H | H] | H]; [now left | right | right].
    + exists "scam"%string. simpl; auto.
    + exists "rug"%string. simpl; auto.
  - intros [H | [term [[<- | [<- | []]] H]]]; auto.
Qed.

Lemma candidateOf_suspicious t : suspicious getSentiment t = true -> candidateOf getSentiment t = [].
Proof. unfold candidateOf. now intros ->. Qed.

Lemma candidateOf_In c t :
  In c (candidateOf getSentiment t) ->
  suspicious getSentiment t = false /\ tweet c = text t
  /\ sentiment c = getSentiment (text t)
  /\ Str.matchCoin (text t) = Some (coin c).
Proof.
  unfold candidateOf. destruct (suspicious getSentiment t); [intros [] |].
  destruct (Str.matchCoin (text t)); [| intros []].
  intros [<- | []]. simpl. auto.
Qed.

Lemma potentialCoins_app a b :
  potentialCoins getSentiment (a ++ b) = (potentialCoins getSentiment a ++ potentialCoins getSentiment b)%list.
Proof. apply flat_map_app. Qed.

Lemma sortInsert_perm x l : Permutation (sortInsert x l) (x :: l).
Proof.
  induction l as [|y r IH]; simpl; [reflexivity |].
  destruct (Num.gtb (compareFn x y) 0); [| reflexivity].
  rewrite IH. apply perm_swap.
Qed.

Lemma sort_perm l : Permutation (sort l) l.
Proof.
  induction l as [|x r IH]; simpl; [reflexivity |].
  rewrite sortInsert_perm. now constructor.
Qed.

Lemma compareFn_pos x y :
  Num.gtb (compareFn x y) 0 = true <-> sentiment x < sentiment y.
Proof.
  rewrite gtb_gt. unfold compareFn, Qminus. symmetry. apply Qlt_minus_iff.
Qed.

Lemma compareFn_nonpos x y :
  Num.gtb (compareFn x y) 0 = false <-> sentiment y <= sentiment x.
Proof.
  rewrite <- not_true_iff_false, compareFn_pos. split.
  - apply Qnot_lt_le.
  - intros H H'. exact (Qlt_not_le _ _ H' H).
Qed.

Lemma sortInsert_sorted x l :
  StronglySorted descending l -> StronglySorted descending (sortInsert x l).
Proof.
  induction 1 as [|y r Hr IH Hy]; simpl.
  - repeat constructor.
  - destruct (Num.gtb (compareFn x y) 0) eqn:E.
    + apply compareFn_pos in E. constructor; [exact IH |].
      apply Forall_forall. intros z Hz.
      apply (Permutation_in _ (sortInsert_perm x r)) in Hz.
      destruct Hz as [<- | Hz].
      * now apply Qlt_le_weak.
      * rewrite Forall_forall in Hy. now apply Hy.
    + apply compareFn_nonpos in E.
      constructor; [now constructor |].
      constructor; [exact E |].
      apply Forall_forall. intros z Hz. rewrite Forall_forall in Hy.
      unfold descending in *. apply Qle_trans with (sentiment y); auto.
Qed.

Lemma sort_sorted l : StronglySorted descending (sort l).
Proof.
  induction l as [|x r IH]; simpl; [constructor | now apply sortInsert_sorted].
Qed.

(** An inserted element overtakes only elements of a strictly higher score, so
    among the candidates of its own score it stays in front. *)
Lemma filter_sortInsert q x l :
  filter (scored q) (sortInsert x l) = filter (scored q) (x :: l).
Proof.
  induction l as [|y r IH]; [reflexivity |].
  cbn [sortInsert]. destruct (Num.gtb (compareFn x y) 0) eqn:E; [| reflexivity].
  apply compareFn_pos in E.
  cbn [filter]. rewrite IH. cbn [filter].
  destruct (scored q y) eqn:Ey, (scored q x) eqn:Ex; try reflexivity.
  unfold scored in Ey, Ex. apply Qeq_bool_iff in Ey, Ex.
  rewrite Ey, Ex in E. now apply Qlt_irrefl in E.
Qed.

Lemma filter_sort q l : filter (scored q) (sort l) = filter (scored q) l.
Proof.
  induction l as [|x r IH]; [reflexivity |].
  cbn [sort]. rewrite filter_sortInsert. cbn [filter]. now rewrite IH.
Qed.

(** The sort is determined by its specification: a descending list that
    holds, score by score, the elements of [l] in the order of [l], is
    [sort l].  So any conforming [Array.prototype.sort] returns it. *)
Lemma scored_refl x : scored (sentiment x) x = true.
Proof. unfold scored. apply Qeq_bool_iff. reflexivity. Qed.

Lemma filter_scored_In q x l :
  In x (filter (scored q) l) -> In x l /\ sentiment x == q.
Proof.
  intros H. apply filter_In in H. destruct H as [H1 H2].
  split; [exact H1 | now apply Qeq_bool_iff].
Qed.

Lemma descending_head_max x l y :
  StronglySorted descending (x :: l) -> In y (x :: l) ->
  sentiment y <= sentiment x.
Proof.
  intros Hs [<- | Hy]; [apply Qle_refl |].
  apply StronglySorted_inv in Hs. destruct Hs as [_ Hall].
  rewrite Forall_forall in Hall. now apply Hall.
Qed.

Lemma descending_classes_unique a b :
  StronglySorted descending a -> StronglySorted descending b ->
  (forall q, filter (scored q) a = filter (scored q) b) ->
  a = b.
Proof.
  revert b. induction a as [|x a IH]; intros b Ha Hb Hcl.
  - destruct b as [|y b]; [reflexivity |].
    specialize (Hcl (sentiment y)). cbn [filter] in Hcl.
    rewrite scored_refl in Hcl. discriminate.
  - destruct b as [|y b].
    + specialize (Hcl (sentiment x)). cbn [filter] in Hcl.
      rewrite scored_refl in Hcl. discriminate.
    + assert (Hxy : sentiment x == sentiment y).
      { apply Qle_antisym.
        - apply (descending_head_max y b x Hb).
          apply (filter_scored_In (sentiment x)). rewrite <- Hcl.
          cbn [filter]. rewrite scored_refl. now left.
        - apply (descending_head_max x a y Ha).
          apply (filter_scored_In (sentiment y)). rewrite Hcl.
          cbn [filter]. rewrite scored_refl. now left. }
      assert (Exy : x = y).
      { pose proof (Hcl (sentiment x)) as H. cbn [filter] in H.
        rewrite scored_refl in H.
        assert (Hy : scored (sentiment x) y = true).
        { unfold scored. apply Qeq_bool_iff. now symmetry. }
        rewrite Hy in H. now injection H. }
      subst y. f_equal. apply IH.
      * now apply StronglySorted_inv in Ha.
      * now apply StronglySorted_inv in Hb.
      * intros q. specialize (Hcl q). cbn [filter] in Hcl.
        destruct (scored q x); [now injection Hcl | exact Hcl].
Qed.

Lemma sort_unique l out :
  StronglySorted descending out ->
  (forall q, filter (scored q) out = filter (scored q) l) ->
  out = sort l.
Proof.
  intros Hs Hcl. apply descending_classes_unique; [exact Hs | apply sort_sorted |].
  intros q. now rewrite filter_sort.
Qed.

Lemma filter_candidateOf q t :
  filter (scored q) (candidateOf getSentiment t)
  = if postScored getSentiment q t then candidateOf getSentiment t else [].
Proof.
  unfold candidateOf, postScored.
  destruct (suspicious getSentiment t); [now destruct Qeq_bool |].
  destruct (Str.matchCoin (text t)); [| now destruct Qeq_bool].
  cbn [filter]. unfold scored. cbn [sentiment]. now destruct Qeq_bool.
Qed.

Lemma filter_potentialCoins q tweets :
  filter (scored q) (potentialCoins getSentiment tweets)
  = potentialCoins getSentiment (filter (postScored getSentiment q) tweets).
Proof.
  induction tweets as [|t r IH]; [reflexivity |].
  cbn [potentialCoins flat_map filter].
  rewrite filter_app, filter_candidateOf.
  fold (potentialCoins getSentiment r). rewrite IH.
  now destruct (postScored getSentiment q t).
Qed.

(** C8: a post whose score is negative, or whose text names a deny-list term
    in any mix of cases, yields no candidate: the loop pushes nothing for
    it, the ranking is what it would be without the post, and no candidate
    of any ranking carries its text. *)
Theorem ranker_excludes (t : Tweet) :
  excluded getSentiment t ->
  candidateOf getSentiment t = []
  /\ (forall before after,
        analyzeTweets getSentiment (SearchOk (before ++ t :: after))
        = analyzeTweets getSentiment (SearchOk (before ++ after)))
  /\ (forall tweets c,
        In c (analyzeTweets getSentiment (SearchOk tweets)) -> tweet c <> text t).
Proof.
  intros Hex. apply suspicious_iff in Hex.
  pose proof (candidateOf_suspicious _ Hex) as Hnone.
  split; [exact Hnone | split].
  - intros before after. cbn [analyzeTweets].
    rewrite !potentialCoins_app. cbn [potentialCoins flat_map].
    now rewrite Hnone.
  - intros tweets c Hc Heq. cbn [analyzeTweets] in Hc.
    apply (Permutation_in _ (sort_perm _)) in Hc.
    apply in_flat_map in Hc. destruct Hc as [t' [_ Hc]].
    apply candidateOf_In in Hc. destruct Hc as [Hs [Ht _]].
    unfold suspicious in Hs, Hex.
    rewrite <- Ht, Heq in Hs. congruence.
Qed.

(** C9: the ranking is in descending order of score, holds the candidates
    of the posts and nothing else, and lists the candidates of one score in
    the order of their posts; no post, a failed search, or posts that are
    all rejected give the empty ranking. *)
Theorem ranker_sorted_stable (tweets : list Tweet) :
  StronglySorted descending (analyzeTweets getSentiment (SearchOk tweets))
  /\ Permutation (analyzeTweets getSentiment (SearchOk tweets)) (potentialCoins getSentiment tweets)
  /\ (forall q,
        filter (scored q) (analyzeTweets getSentiment (SearchOk tweets))
        = potentialCoins getSentiment (filter (postScored getSentiment q) tweets))
  /\ analyzeTweets getSentiment (SearchOk []) = []
  /\ analyzeTweets getSentiment SearchFailed = []
  /\ (Forall (fun t => candidateOf getSentiment t = []) tweets ->
      analyzeTweets getSentiment (SearchOk tweets) = []).
Proof.
  cbn [analyzeTweets]. repeat split.
  - apply sort_sorted.
  - apply sort_perm.
  - intros q. rewrite filter_sort. apply filter_potentialCoins.
  - intros Hall. replace (potentialCoins getSentiment tweets) with (@nil Candidate);
      [reflexivity |].
    induction Hall as [|t r Ht _ IH]; [reflexivity |].
    cbn [potentialCoins flat_map]. rewrite Ht. exact IH.
Qed.

End RankerFacts.

Lemma ranker_excludes_witness :
  excluded Scenario.mood {| text := "$FOO to the moon, no SCAM" |}
  /\ Scenario.mood "$FOO to the moon, no SCAM" == 4
  /\ candidateOf Scenario.mood {| text := "$FOO to the moon, no SCAM" |} = [].
Proof.
  assert (H : excluded Scenario.mood {| text := "$FOO to the moon, no SCAM" |}).
  { right. exists "scam"%string. split; [simpl; auto |].
    exists "$FOO to the moon, no "%string, "SCAM"%string, ""%string.
    split; [reflexivity |]. simpl. unfold sameLetter.
    repeat split; right; left; split; reflexivity. }
  split; [exact H | split; [reflexivity |]].
  exact (proj1 (ranker_excludes Scenario.mood _ H)).
Defined.

Lemma ranker_sorted_stable_witness :
  Forall (fun t => candidateOf Scenario.mood t = [])
         [ {| text := "$BAD is bad" |}; {| text := "nothing here" |} ]
  /\ analyzeTweets Scenario.mood
       (SearchOk [ {| text := "$BAD is bad" |}; {| text := "nothing here" |} ])
     = [].
Proof.
  assert (H : Forall (fun t => candidateOf Scenario.mood t = [])
                [ {| text := "$BAD is bad" |}; {| text := "nothing here" |} ]).
  { repeat constructor. }
  split; [exact H |].
  exact (proj2 (proj2 (proj2 (proj2 (proj2
    (ranker_sorted_stable Scenario.mood _))))) H).
Defined.

(** ** The position map *)

Lemma get_None_keys m k : JsMap.get m k = None <-> ~ In k (JsMap.keys m).
Proof.
  induction m as [|[k' v] r IH]; simpl; [tauto |].
  destruct (String.eqb_spec k k') as [-> | Hne].
  - split; [discriminate | intros H; exfalso; auto].
  - rewrite IH. split; [intros H [E | E]; auto | auto].
Qed.

Lemma get_Some_keys m k v : JsMap.get m k = Some v -> In k (JsMap.keys m).
Proof.
  intros H. destruct (in_dec string_dec k (JsMap.keys m)) as [Hin | Hout].
  - exact Hin.
  - apply get_None_keys in Hout. congruence.
Qed.

Lemma keys_set_tracked m k v p :
  JsMap.get m k = Some p -> JsMap.keys (JsMap.set m k v) = JsMap.keys m.
Proof.
  induction m as [|[k' v'] r IH]; simpl; [discriminate |].
  destruct (String.eqb k k'); simpl; [reflexivity |].
  intros H. now rewrite IH.
Qed.

Lemma keys_set_fresh m k v :
  JsMap.get m k = None ->
  JsMap.keys (JsMap.set m k v) = (JsMap.keys m ++ [k])%list.
Proof.
  induction m as [|[k' v'] r IH]; simpl; [reflexivity |].
  destruct (String.eqb k k'); simpl; [discriminate |].
  intros H. now rewrite IH.
Qed.

Lemma get_set_same m k v : JsMap.get (JsMap.set m k v) k = Some v.
Proof.
  induction m as [|[k' v'] r IH]; simpl.
  - now rewrite String.eqb_refl.
  - destruct (String.eqb k k') eqn:E; simpl; rewrite E; [reflexivity | exact IH].
Qed.

Lemma get_set_other m k v k' :
  k' <> k -> JsMap.get (JsMap.set m k v) k' = JsMap.get m k'.
Proof.
  intros Hne. induction m as [|[k0 v0] r IH]; simpl.
  - destruct (String.eqb_spec k' k); [contradiction | reflexivity].
  - destruct (String.eqb_spec k k0) as [-> | H0]; simpl.
    + destruct (String.eqb_spec k' k0); [contradiction | reflexivity].
    + now rewrite IH.
Qed.

Lemma get_delete_other m k k' :
  k' <> k -> JsMap.get (JsMap.delete m k) k' = JsMap.get m k'.
Proof.
  intros Hne. induction m as [|[k0 v0] r IH]; simpl; [reflexivity |].
  destruct (String.eqb_spec k k0) as [-> | H0]; simpl.
  - destruct (String.eqb_spec k' k0); [contradiction | reflexivity].
  - now rewrite IH.
Qed.

Lemma keys_delete_incl m k x :
  In x (JsMap.keys (JsMap.delete m k)) -> In x (JsMap.keys m).
Proof.
  induction m as [|[k0 v0] r IH]; simpl; [auto |].
  destruct (String.eqb k k0); simpl; [auto | intros [H | H]; auto].
Qed.

Lemma get_delete_same m k :
  NoDup (JsMap.keys m) -> JsMap.get (JsMap.delete m k) k = None.
Proof.
  induction m as [|[k0 v0] r IH]; simpl; [reflexivity |].
  intros H. inversion H as [|? ? Hout Hr]; subst.
  destruct (String.eqb_spec k k0) as [-> | H0]; simpl.
  - now apply get_None_keys.
  - destruct (String.eqb_spec k k0); [contradiction | now apply IH].
Qed.

Lemma NoDup_keys_set m k v :
  NoDup (JsMap.keys m) -> NoDup (JsMap.keys (JsMap.set m k v)).
Proof.
  intros H. destruct (JsMap.get m k) as [p|] eqn:E.
  - now rewrite (keys_set_tracked _ _ _ _ E).
  - rewrite (keys_set_fresh _ _ _ E).
    apply NoDup_app; [exact H | repeat constructor; intros [] |].
    intros x Hx [<- | []]. now apply get_None_keys in E.
Qed.

Lemma NoDup_keys_delete m k :
  NoDup (JsMap.keys m) -> NoDup (JsMap.keys (JsMap.delete m k)).
Proof.
  induction m as [|[k0 v0] r IH]; simpl; [auto |].
  intros H. inversion H as [|? ? Hout Hr]; subst.
  destruct (String.eqb k k0); simpl; [exact Hr |].
  constructor; [| now apply IH].
  intros Hin. apply Hout. exact (keys_delete_incl _ _ _ Hin).
Qed.

Lemma length_set m k v :
  (List.length (JsMap.set m k v) <= S (List.length m))%nat.
Proof.
  induction m as [|[k0 v0] r IH]; simpl; [lia |].
  destruct (String.eqb k k0); simpl; lia.
Qed.

Lemma length_delete m k :
  (List.length (JsMap.delete m k) <= List.length m)%nat.
Proof.
  induction m as [|[k0 v0] r IH]; simpl; [lia |].
  destruct (String.eqb k k0); simpl; lia.
Qed.

(** ** One call, in closed form *)

Section EngineFacts.

Variable getSentiment : string -> Q.
Variable market : Oracle.

Lemma getCoinData_run coin s :
  getCoinData market coin s = (Ok (answer market s coin), asked coin s).
Proof.
  unfold getCoinData, tryCatch, bind, axiosGet, answer, token, asked.
  destruct (market _ _) as [|[d|]]; reflexivity.
Qed.

Lemma buyCoin_run coin amountInSol s :
  buyCoin market coin amountInSol s =
  match answer market s coin with
  | Some d =>
      if passes d
      then (Ok true,
            {| trackedCoins :=
                 JsMap.set (trackedCoins s) coin (opened d amountInSol);
               dailyOperations := S (dailyOperations s);
               requests := requests (asked coin s) |})
      else (Ok false, asked coin s)
  | None => (Ok false, asked coin s)
  end.
Proof.
  unfold buyCoin, tryCatch, bind. rewrite getCoinData_run.
  destruct (answer market s coin) as [d|]; [| reflexivity].
  unfold passes.
  destruct (Num.gtb (marketCap d) _ || Num.ltb (marketCap d) _); [reflexivity |].
  destruct (Num.gtb (price d) 0.01); reflexivity.
Qed.

Lemma sellCoinTry_run coin s :
  sellCoinTry market coin s =
  match answer market s coin with
  | Some d =>
      match JsMap.get (trackedCoins s) coin with
      | Some p =>
          if Num.geb (price d) (buyPrice p * targetMultiplier p)
          then (Ok true,
                {| trackedCoins := JsMap.delete (trackedCoins s) coin;
                   dailyOperations := S (dailyOperations s);
                   requests := requests (asked coin s) |})
          else (Ok false, asked coin s)
      | None => (Thrown TypeError, asked coin s)
      end
  | None => (Ok false, asked coin s)
  end.
Proof.
  unfold sellCoinTry, bind. rewrite getCoinData_run.
  destruct (answer market s coin) as [d|]; [| reflexivity].
  unfold trackedGet. cbn [asked trackedCoins].
  destruct (JsMap.get (trackedCoins s) coin) as [p|]; [| reflexivity].
  destruct (Num.geb _ _); reflexivity.
Qed.

Lemma sellCoin_run coin s :
  sellCoin market coin s =
  match answer market s coin, JsMap.get (trackedCoins s) coin with
  | Some d, Some p =>
      if Num.geb (price d) (buyPrice p * targetMultiplier p)
      then (Ok true,
            {| trackedCoins := JsMap.delete (trackedCoins s) coin;
               dailyOperations := S (dailyOperations s);
               requests := requests (asked coin s) |})
      else (Ok false, asked coin s)
  | _, _ => (Ok false, asked coin s)
  end.
Proof.
  unfold sellCoin, tryCatch. rewrite sellCoinTry_run.
  destruct (answer market s coin) as [d|]; [| reflexivity].
  destruct (JsMap.get (trackedCoins s) coin) as [p|]; [| reflexivity].
  destruct (Num.geb _ _); reflexivity.
Qed.

(** The guards of [buyCoin], as inequalities. *)
Lemma passes_iff d :
  passes d = true <->
  2500 <= marketCap d /\ marketCap d <= 7500 /\ price d <= 0.01.
Proof.
  unfold passes. rewrite andb_true_iff, !negb_true_iff, orb_false_iff.
  rewrite !gtb_le, ltb_ge.
  assert (E1 : MARKET_CAP_THRESHOLD * 1.5 == 7500) by reflexivity.
  assert (E2 : MARKET_CAP_THRESHOLD * 0.5 == 2500) by reflexivity.
  rewrite E1, E2. tauto.
Qed.

(** The guard of the cycle is the admission predicate. *)
Lemma admitted_iff d : admitted d = true <-> admission d.
Proof.
  unfold admitted, admission. rewrite !andb_true_iff.
  rewrite gtb_gt, ltb_lt, geb_ge, leb_le.
  assert (E1 : MARKET_CAP_THRESHOLD * 1.5 == 7500) by reflexivity.
  assert (E2 : MARKET_CAP_THRESHOLD * 0.5 == 2500) by reflexivity.
  rewrite E1, E2. tauto.
Qed.

(** The guards of [buyCoin], as the tests the code makes: none of the
    three comparisons holds. *)
Lemma passes_tests d :
  passes d = true <->
  ~ 7500 < marketCap d /\ ~ marketCap d < 2500 /\ ~ 0.01 < price d.
Proof.
  rewrite passes_iff. split.
  - intros [H1 [H2 H3]]. repeat split; apply Qle_not_lt; assumption.
  - intros [H1 [H2 H3]]. repeat split; apply Qnot_lt_le; assumption.
Qed.

Lemma admission_passes d : admission d -> passes d = true.
Proof.
  intros [_ [Hp [Hlo Hhi]]]. apply passes_iff.
  repeat split; [exact Hlo | exact Hhi | now apply Qlt_le_weak].
Qed.

Lemma rejected_fails d :
  marketCap d < 2500 \/ 7500 < marketCap d \/ 0.01 < price d ->
  passes d = false.
Proof.
  intros H. apply not_true_iff_false. intros Hp.
  apply passes_tests in Hp. tauto.
Qed.

End EngineFacts.

(** ** Selling *)

Section Selling.

Variable market : Oracle.

(** C5: for a tracked position (in a map, whose keys are distinct) and an
    available snapshot, [sellCoin]
    sells exactly when the current price is at least the entry price times
    the target multiplier, the boundary included; a sale removes the position
    (and no other) and adds one to the count of operations, and otherwise the
    position is held, the call returns [false] and map and count stay as they
    are. *)
Theorem sellCoin_exit_rule (coin : string) (s : State) (p : Position)
    (d : Dex.Pair) :
  NoDup (JsMap.keys (trackedCoins s)) ->
  JsMap.get (trackedCoins s) coin = Some p ->
  market (List.length (requests s)) (token coin) = Dex.Pairs (Some d) ->
  let currentPrice := price (snapshot d) in
  let s' := exec (sellCoin market coin) s in
  (result (sellCoin market coin) s = Ok true
   <-> buyPrice p * targetMultiplier p <= currentPrice)
  /\ (currentPrice == buyPrice p * targetMultiplier p ->
      result (sellCoin market coin) s = Ok true)
  /\ (result (sellCoin market coin) s = Ok true ->
      JsMap.get (trackedCoins s') coin = None
      /\ trackedCoins s' = JsMap.delete (trackedCoins s) coin
      /\ (forall other, other <> coin ->
            JsMap.get (trackedCoins s') other
            = JsMap.get (trackedCoins s) other)
      /\ dailyOperations s' = S (dailyOperations s))
  /\ (result (sellCoin market coin) s <> Ok true ->
      result (sellCoin market coin) s = Ok false
      /\ trackedCoins s' = trackedCoins s
      /\ dailyOperations s' = dailyOperations s).
Proof.
  intros Hnd Hget Hm currentPrice s'.
  unfold s', exec, result. rewrite sellCoin_run.
  unfold answer. rewrite Hm, Hget. fold currentPrice.
  destruct (Num.geb currentPrice (buyPrice p * targetMultiplier p)) eqn:E;
    cbn [fst snd trackedCoins dailyOperations asked].
  - apply geb_ge in E. split; [tauto |]. split; [reflexivity |]. split.
    + intros _. split; [now apply get_delete_same |].
      split; [reflexivity |]. split; [| reflexivity].
      intros other Hne. now apply get_delete_other.
    + intros H. now elim H.
  - apply geb_lt in E. split; [| split; [| split]].
    + split; [discriminate |].
      intros H. exfalso. exact (Qlt_not_le _ _ E H).
    + intros H. exfalso. rewrite H in E. exact (Qlt_irrefl _ E).
    + discriminate.
    + intros _. repeat split.
Qed.

(** C7: when the market data of a tracked position is unavailable (the
    request fails, or the answer holds no pair), [sellCoin] returns [false],
    the map is the same, the position in it, and the count is unchanged. *)
Theorem sellCoin_no_data_holds (coin : string) (s : State) (p : Position) :
  JsMap.get (trackedCoins s) coin = Some p ->
  unavailable (market (List.length (requests s)) (token coin)) ->
  result (sellCoin market coin) s = Ok false
  /\ trackedCoins (exec (sellCoin market coin) s) = trackedCoins s
  /\ JsMap.get (trackedCoins (exec (sellCoin market coin) s)) coin = Some p
  /\ dailyOperations (exec (sellCoin market coin) s) = dailyOperations s.
Proof.
  intros Hget Hun. unfold exec, result. rewrite sellCoin_run.
  unfold answer. destruct Hun as [-> | ->]; cbn; auto.
Qed.

(** C10: [sellCoin] on a symbol without a position returns [false] and
    throws nothing, whatever the market answers, and leaves map and count as
    they are; when the market does answer, the [try] block fails on the
    lookup with a [TypeError], which the handler absorbs. *)
Theorem sellCoin_untracked_safe (coin : string) (s : State) :
  JsMap.get (trackedCoins s) coin = None ->
  sellCoin market coin s = (Ok false, asked coin s)
  /\ trackedCoins (exec (sellCoin market coin) s) = trackedCoins s
  /\ dailyOperations (exec (sellCoin market coin) s) = dailyOperations s
  /\ (forall d, answer market s coin = Some d ->
        result (sellCoinTry market coin) s = Thrown TypeError).
Proof.
  intros Hget. unfold exec, result. rewrite sellCoin_run, Hget.
  split; [now destruct (answer market s coin) |].
  split; [now destruct (answer market s coin) |].
  split; [now destruct (answer market s coin) |].
  intros d Hd. now rewrite sellCoinTry_run, Hd, Hget.
Qed.

(** [sellCoin] never throws. *)
Lemma sellCoin_returns (coin : string) (s : State) :
  exists b s', sellCoin market coin s = (Ok b, s').
Proof.
  rewrite sellCoin_run.
  destruct (answer market s coin) as [d|]; [| eauto].
  destruct (JsMap.get (trackedCoins s) coin) as [p|]; [| eauto].
  destruct (Num.geb _ _); eauto.
Qed.

End Selling.

Lemma sellCoin_exit_rule_witness :
  result (sellCoin (Scenario.flat 0.011) "FOO") Scenario.holdingFoo = Ok true
  /\ JsMap.get
       (trackedCoins (exec (sellCoin (Scenario.flat 0.011) "FOO")
                           Scenario.holdingFoo)) "FOO" = None
  /\ dailyOperations (exec (sellCoin (Scenario.flat 0.011) "FOO")
                           Scenario.holdingFoo) = 2%nat.
Proof.
  assert (Hnd : NoDup (JsMap.keys (trackedCoins Scenario.holdingFoo))).
  { repeat constructor. simpl. tauto. }
  pose proof (sellCoin_exit_rule (Scenario.flat 0.011) "FOO"
                Scenario.holdingFoo Scenario.foo
                {| Dex.priceUsd := Some 0.011; Dex.marketCap := Some 5000 |}
                Hnd eq_refl eq_refl) as H.
  cbv zeta in H. destruct H as [Hiff [_ [Hsell _]]].
  assert (Hr : result (sellCoin (Scenario.flat 0.011) "FOO")
                      Scenario.holdingFoo = Ok true).
  { apply Hiff. vm_compute. discriminate. }
  destruct (Hsell Hr) as [Hgone [_ [_ Hcount]]].
  split; [exact Hr | split; [exact Hgone | exact Hcount]].
Defined.

Lemma sellCoin_no_data_holds_witness :
  result (sellCoin Scenario.down "FOO") Scenario.holdingFoo = Ok false
  /\ trackedCoins (exec (sellCoin Scenario.down "FOO") Scenario.holdingFoo)
     = trackedCoins Scenario.holdingFoo.
Proof.
  pose proof (sellCoin_no_data_holds Scenario.down "FOO" Scenario.holdingFoo
                Scenario.foo eq_refl (or_introl eq_refl)) as H.
  split; [exact (proj1 H) | exact (proj1 (proj2 H))].
Defined.

Lemma sellCoin_untracked_safe_witness :
  JsMap.get (trackedCoins Scenario.holdingFoo) "BAR" = None
  /\ sellCoin (Scenario.flat 0.011) "BAR" Scenario.holdingFoo
     = (Ok false, asked "BAR" Scenario.holdingFoo)
  /\ result (sellCoinTry (Scenario.flat 0.011) "BAR") Scenario.holdingFoo
     = Thrown TypeError.
Proof.
  pose proof (sellCoin_untracked_safe (Scenario.flat 0.011) "BAR"
                Scenario.holdingFoo eq_refl) as H.
  split; [reflexivity |].
  split; [exact (proj1 H) |].
  exact (proj2 (proj2 (proj2 H)) _ eq_refl).
Defined.

(** ** Buying *)

Section Buying.

Variable market : Oracle.

Lemma buyCoin_true_iff coin amountInSol s :
  result (buyCoin market coin amountInSol) s = Ok true
  <-> exists d, answer market s coin = Some d
                /\ 2500 <= marketCap d /\ marketCap d <= 7500
                /\ price d <= 0.01.
Proof.
  unfold result. rewrite buyCoin_run.
  destruct (answer market s coin) as [d|].
  - destruct (passes d) eqn:E; cbn [fst].
    + split; [intros _ | reflexivity]. exists d. split; [reflexivity |].
      now apply passes_iff.
    + split; [discriminate |]. intros [d' [Hd H]]. injection Hd as <-.
      apply passes_iff in H. congruence.
  - split; [discriminate | intros [d [H _]]; discriminate].
Qed.

(** [buyCoin] never throws. *)
Lemma buyCoin_returns coin amountInSol s :
  exists b s', buyCoin market coin amountInSol s = (Ok b, s').
Proof.
  rewrite buyCoin_run. destruct (answer market s coin) as [d|]; [| eauto].
  destruct (passes d); eauto.
Qed.

Lemma buyCoin_requests coin amountInSol s :
  requests (exec (buyCoin market coin amountInSol) s)
  = (requests s ++ [token coin])%list.
Proof.
  unfold exec. rewrite buyCoin_run.
  destruct (answer market s coin) as [d|]; [| reflexivity].
  destruct (passes d); reflexivity.
Qed.

Lemma buyCoin_count coin amountInSol s :
  dailyOperations (exec (buyCoin market coin amountInSol) s)
  = (dailyOperations s
     + match result (buyCoin market coin amountInSol) s with
       | Ok true => 1
       | _ => 0
       end)%nat.
Proof.
  unfold exec, result. rewrite buyCoin_run.
  destruct (answer market s coin) as [d|]; cbn; [| lia].
  destruct (passes d); cbn; lia.
Qed.

Lemma sellCoin_requests coin s :
  requests (exec (sellCoin market coin) s) = (requests s ++ [token coin])%list.
Proof.
  unfold exec. rewrite sellCoin_run.
  destruct (answer market s coin) as [d|]; [| reflexivity].
  destruct (JsMap.get (trackedCoins s) coin) as [p|]; [| reflexivity].
  destruct (Num.geb _ _); reflexivity.
Qed.

Lemma sellCoin_count coin s :
  dailyOperations (exec (sellCoin market coin) s)
  = (dailyOperations s
     + match result (sellCoin market coin) s with
       | Ok true => 1
       | _ => 0
       end)%nat.
Proof.
  unfold exec, result. rewrite sellCoin_run.
  destruct (answer market s coin) as [d|]; cbn; [| lia].
  destruct (JsMap.get (trackedCoins s) coin) as [p|]; cbn; [| lia].
  destruct (Num.geb _ _); cbn; lia.
Qed.

(** What one call can do to the map. *)
Lemma buyCoin_tracked coin amountInSol s :
  trackedCoins (exec (buyCoin market coin amountInSol) s) = trackedCoins s
  \/ exists d, answer market s coin = Some d /\ passes d = true
       /\ trackedCoins (exec (buyCoin market coin amountInSol) s)
          = JsMap.set (trackedCoins s) coin (opened d amountInSol).
Proof.
  unfold exec. rewrite buyCoin_run.
  destruct (answer market s coin) as [d|]; [| now left].
  destruct (passes d) eqn:E; [right; eauto | now left].
Qed.

Lemma sellCoin_tracked coin s :
  trackedCoins (exec (sellCoin market coin) s) = trackedCoins s
  \/ trackedCoins (exec (sellCoin market coin) s)
     = JsMap.delete (trackedCoins s) coin.
Proof.
  unfold exec. rewrite sellCoin_run.
  destruct (answer market s coin) as [d|]; [| now left].
  destruct (JsMap.get (trackedCoins s) coin) as [p|]; [| now left].
  destruct (Num.geb _ _); [now right | now left].
Qed.

(** *** The sweep *)

Lemma sweep_cons coin rest s :
  sweep market (coin :: rest) s
  = sweep market rest (exec (sellCoin market coin) s).
Proof.
  cbn [sweep]. unfold bind, exec.
  destruct (sellCoin_returns market coin s) as [b [s' ->]]. reflexivity.
Qed.

Lemma exec_sweep_cons coin rest s :
  exec (sweep market (coin :: rest)) s
  = exec (sweep market rest) (exec (sellCoin market coin) s).
Proof. unfold exec at 1 2. now rewrite sweep_cons. Qed.

Lemma sweep_returns todo s : result (sweep market todo) s = Ok tt.
Proof.
  revert s. induction todo as [|coin rest IH]; intros s; [reflexivity |].
  unfold result in *. rewrite sweep_cons. apply IH.
Qed.

Lemma sweep_app a b s :
  exec (sweep market (a ++ b)) s
  = exec (sweep market b) (exec (sweep market a) s).
Proof.
  revert s. induction a as [|coin rest IH]; intros s; [reflexivity |].
  cbn [app]. rewrite !exec_sweep_cons. apply IH.
Qed.

Lemma sweep_requests todo s :
  requests (exec (sweep market todo) s)
  = (requests s ++ map token todo)%list.
Proof.
  revert s. induction todo as [|coin rest IH]; intros s.
  - cbn. now rewrite app_nil_r.
  - rewrite exec_sweep_cons, IH, sellCoin_requests.
    now rewrite <- app_assoc.
Qed.

Lemma sweep_count todo s :
  (dailyOperations s <= dailyOperations (exec (sweep market todo) s)
   <= dailyOperations s + List.length todo)%nat.
Proof.
  revert s. induction todo as [|coin rest IH]; intros s; [cbn; lia |].
  rewrite exec_sweep_cons.
  specialize (IH (exec (sellCoin market coin) s)).
  rewrite sellCoin_count in IH. cbn [List.length].
  destruct (result (sellCoin market coin) s) as [[|]|]; lia.
Qed.

Lemma sweep_length todo s :
  (List.length (trackedCoins (exec (sweep market todo) s))
   <= List.length (trackedCoins s))%nat.
Proof.
  revert s. induction todo as [|coin rest IH]; intros s; [cbn; lia |].
  rewrite exec_sweep_cons.
  specialize (IH (exec (sellCoin market coin) s)).
  destruct (sellCoin_tracked coin s) as [E | E]; rewrite E in IH; [lia |].
  pose proof (length_delete (trackedCoins s) coin). lia.
Qed.

Lemma sweep_NoDup todo s :
  NoDup (JsMap.keys (trackedCoins s)) ->
  NoDup (JsMap.keys (trackedCoins (exec (sweep market todo) s))).
Proof.
  revert s. induction todo as [|coin rest IH]; intros s H; [exact H |].
  rewrite exec_sweep_cons. apply IH.
  destruct (sellCoin_tracked coin s) as [E | E]; rewrite E;
    [exact H | now apply NoDup_keys_delete].
Qed.

Lemma sweep_get_other todo s c :
  ~ In c todo ->
  JsMap.get (trackedCoins (exec (sweep market todo) s)) c
  = JsMap.get (trackedCoins s) c.
Proof.
  revert s. induction todo as [|coin rest IH]; intros s H; [reflexivity |].
  rewrite exec_sweep_cons, IH by (intros Hin; apply H; now right).
  destruct (sellCoin_tracked coin s) as [E | E]; rewrite E; [reflexivity |].
  apply get_delete_other. intros ->. apply H. now left.
Qed.

(** The loop and the live map.  When the iterator stands on [coin], with
    [held] before it and [rest] after it, the call of [sellCoin] leaves the
    map with the keys [held ++ coin :: rest] or [held ++ rest]: the entries
    still to be met are [rest] either way. *)
Lemma keys_delete_at held coin rest m :
  JsMap.keys m = (held ++ coin :: rest)%list ->
  ~ In coin held ->
  JsMap.keys (JsMap.delete m coin) = (held ++ rest)%list.
Proof.
  revert m. induction held as [|k held IH]; intros m Hk Hout.
  - destruct m as [|[k0 v0] r]; [discriminate |].
    cbn in Hk. injection Hk as -> Hr. cbn. now rewrite String.eqb_refl.
  - destruct m as [|[k0 v0] r]; [discriminate |].
    cbn in Hk. injection Hk as -> Hr. cbn [JsMap.delete].
    destruct (String.eqb_spec coin k) as [-> | Hne].
    + exfalso. apply Hout. now left.
    + cbn. f_equal. apply IH; [exact Hr |].
      intros Hin. apply Hout. now right.
Qed.

Lemma sellCoin_keys held coin rest s :
  JsMap.keys (trackedCoins s) = (held ++ coin :: rest)%list ->
  ~ In coin held ->
  JsMap.keys (trackedCoins (exec (sellCoin market coin) s))
  = (held ++ coin :: rest)%list
  \/ JsMap.keys (trackedCoins (exec (sellCoin market coin) s))
     = (held ++ rest)%list.
Proof.
  intros Hk Hout.
  destruct (sellCoin_tracked coin s) as [E | E]; rewrite E.
  - now left.
  - right. now apply keys_delete_at.
Qed.
End Buying.

(** ** The cycle *)

Section Cycle.

Variable getSentiment : string -> Q.
Variable market : Oracle.

(** The state after the acquisition phase, for a top coin [c] whose first
    snapshot is [d]. *)
Lemma runDailyOperations_run res s :
  runDailyOperations getSentiment market res s =
  if (10 <=? dailyOperations s)%nat then (Ok tt, s)
  else match analyzeTweets getSentiment res with
       | [] => (Ok tt, s)
       | topCoin :: _ =>
           let c := Str.replaceDollar (coin topCoin) in
           match answer market s c with
           | None => (Ok tt, asked c s)
           | Some d =>
               let s1 := if admitted d
                         then exec (buyCoin market c 0.1) (asked c s)
                         else asked c s in
               sweep market (JsMap.keys (trackedCoins s1)) s1
           end
       end.
Proof.
  unfold runDailyOperations, bind at 1, readOperations.
  change (MAX_DAILY_OPERATIONS * 2)%nat with 10%nat.
  destruct (10 <=? dailyOperations s)%nat; [reflexivity |].
  destruct (analyzeTweets getSentiment res) as [|topCoin rest]; [reflexivity |].
  unfold bind at 1. rewrite getCoinData_run.
  destruct (answer market s (Str.replaceDollar (coin topCoin))) as [d|];
    [| reflexivity].
  cbv zeta. unfold bind at 1. destruct (admitted d).
  - unfold bind at 1, exec.
    destruct (buyCoin_returns market (Str.replaceDollar (coin topCoin)) 0.1
                (asked (Str.replaceDollar (coin topCoin)) s)) as [b [s1 ->]].
    reflexivity.
  - reflexivity.
Qed.

(** A cycle never throws. *)
Lemma runDailyOperations_returns res s :
  result (runDailyOperations getSentiment market res) s = Ok tt.
Proof.
  unfold result. rewrite runDailyOperations_run.
  destruct (10 <=? dailyOperations s)%nat; [reflexivity |].
  destruct (analyzeTweets getSentiment res) as [|topCoin rest]; [reflexivity |].
  cbv zeta. destruct (answer market s _) as [d|]; [| reflexivity].
  apply sweep_returns.
Qed.

(** A cycle that starts with the limit reached does nothing. *)
Lemma runDailyOperations_exhausted res s :
  (10 <= dailyOperations s)%nat ->
  runDailyOperations getSentiment market res s = (Ok tt, s).
Proof.
  intros H. rewrite runDailyOperations_run.
  apply Nat.leb_le in H. now rewrite H.
Qed.

Lemma steady_asked c s : steady s -> steady (asked c s).
Proof. exact (fun H => H). Qed.

Lemma steady_cycle res s :
  steady s -> steady (exec (runDailyOperations getSentiment market res) s).
Proof.
  intros Hs. unfold exec. rewrite runDailyOperations_run.
  destruct (10 <=? dailyOperations s)%nat eqn:Hlim; [exact Hs |].
  apply Nat.leb_gt in Hlim.
  destruct (analyzeTweets getSentiment res) as [|topCoin rest]; [exact Hs |].
  cbv zeta. set (c := Str.replaceDollar (coin topCoin)).
  destruct (answer market s c) as [d|]; [| exact Hs].
  set (s1 := if admitted d then exec (buyCoin market c 0.1) (asked c s)
             else asked c s).
  assert (H1 : NoDup (JsMap.keys (trackedCoins s1))
               /\ (List.length (trackedCoins s1) <= dailyOperations s1)%nat
               /\ (dailyOperations s1 <= 10)%nat).
  { destruct Hs as [Hnd [Hlen _]]. unfold s1. destruct (admitted d).
    - pose proof (buyCoin_count market c 0.1 (asked c s)) as Hc.
      destruct (buyCoin_tracked market c 0.1 (asked c s))
        as [E | [d' [Hd' [Hp E]]]]; rewrite E.
      + cbn [asked trackedCoins dailyOperations] in *.
        destruct (result _ _) as [[|]|]; repeat split; auto; lia.
      + unfold result in Hc. rewrite buyCoin_run, Hd', Hp in Hc.
        cbn [fst asked trackedCoins dailyOperations] in *.
        pose proof (length_set (trackedCoins s) c (opened d' 0.1)).
        repeat split; [now apply NoDup_keys_set | lia | lia].
    - cbn [asked trackedCoins dailyOperations]. repeat split; auto; lia. }
  destruct H1 as [Hnd1 [Hlen1 Hcount1]].
  fold (exec (sweep market (JsMap.keys (trackedCoins s1))) s1).
  pose proof (sweep_count market (JsMap.keys (trackedCoins s1)) s1) as Hc.
  pose proof (sweep_length market (JsMap.keys (trackedCoins s1)) s1) as Hl.
  assert (Hk : List.length (JsMap.keys (trackedCoins s1))
               = List.length (trackedCoins s1)) by apply length_map.
  rewrite Hk in Hc.
  repeat split; [now apply sweep_NoDup | lia | lia].
Qed.

Lemma reachable_steady s : reachable getSentiment market s -> steady s.
Proof.
  induction 1 as [|s res _ IH].
  - repeat split; [constructor | cbn; lia | cbn; lia].
  - now apply steady_cycle.
Qed.

Lemma reachable_runCycles feed s :
  reachable getSentiment market s ->
  reachable getSentiment market (runCycles getSentiment market feed s).
Proof.
  revert s. induction feed as [|res later IH]; intros s H; [exact H |].
  cbn [runCycles]. apply IH. now constructor.
Qed.

End Cycle.

(** ** The budget *)

(** The count is not bounded by the limit: six cycles, each buying a new
    coin, the last one selling all six, leave it at 12. *)
Lemma operations_pass_the_limit :
  ~ (forall getSentiment market s,
       reachable getSentiment market s -> (dailyOperations s <= 10)%nat).
Proof.
  intros H.
  specialize (H Scenario.positive (Scenario.jump 27 0.005 0.011) _
                (reachable_runCycles _ _ Scenario.sixPosts _
                   (reachable_initial _ _))).
  vm_compute in H. lia.
Qed.

(** C2, at the failing input: six cycles, one post each, on six coins
    quoted at 0.005 until the sweep of the sixth cycle and at 0.011 from then
    on.  The first five cycles buy and hold, the sixth starts with the count
    at 5, buys, and sells all six positions: the count ends at 12, above the
    limit of 10. *)
Theorem operations_overshoot :
  reachable Scenario.positive (Scenario.jump 27 0.005 0.011)
    (runCycles Scenario.positive (Scenario.jump 27 0.005 0.011)
       Scenario.sixPosts initial)
  /\ dailyOperations
       (runCycles Scenario.positive (Scenario.jump 27 0.005 0.011)
          (firstn 5 Scenario.sixPosts) initial) = 5%nat
  /\ runCycles Scenario.positive (Scenario.jump 27 0.005 0.011)
       Scenario.sixPosts initial
     = {| trackedCoins := [];
          dailyOperations := 12;
          requests := requests
                        (runCycles Scenario.positive
                           (Scenario.jump 27 0.005 0.011)
                           Scenario.sixPosts initial) |}
  /\ (MAX_DAILY_OPERATIONS * 2 < 12)%nat.
Proof.
  split; [apply reachable_runCycles, reachable_initial |].
  split; [reflexivity |]. split; [reflexivity |]. cbn. lia.
Qed.



(** The bound of 20 is met: nine cycles that buy and hold, and a tenth that
    buys and sells all ten positions. *)
Example operations_bound_is_met :
  dailyOperations
    (runCycles Scenario.positive (Scenario.jump 65 0.005 0.011)
       Scenario.tenPosts initial) = 20%nat.
Proof. vm_compute. reflexivity. Qed.

(** ** One position per symbol *)

(** C1, as the claim has it, fails: after one cycle has bought FOO at
    0.005, a second [buyCoin] for FOO at 0.004 returns [true] and the stored
    entry price becomes 0.004. *)
Lemma second_buy_not_rejected :
  ~ (forall getSentiment market s coin amountInSol p,
       reachable getSentiment market s ->
       JsMap.get (trackedCoins s) coin = Some p ->
       result (buyCoin market coin amountInSol) s = Ok false
       /\ JsMap.get (trackedCoins (exec (buyCoin market coin amountInSol) s))
            coin = Some p).
Proof.
  intros H.
  destruct (H Scenario.positive (Scenario.jump 3 0.005 0.004)
              (exec (runDailyOperations Scenario.positive
                       (Scenario.jump 3 0.005 0.004)
                       (Scenario.post "$FOO to the moon!")) initial)
              "FOO"%string 0.1 Scenario.foo
              (reachable_cycle _ _ _ _ (reachable_initial _ _))
              eq_refl) as [Hfalse _].
  vm_compute in Hfalse. discriminate.
Qed.

(** The same run, evaluated. *)
Example second_buy_replaces :
  exec (runDailyOperations Scenario.positive (Scenario.jump 3 0.005 0.004)
          (Scenario.post "$FOO to the moon!")) initial
  = Scenario.holdingFoo
  /\ buyCoin (Scenario.jump 3 0.005 0.004) "FOO" 0.1 Scenario.holdingFoo
     = (Ok true,
        {| trackedCoins :=
             [("FOO"%string,
               {| buyPrice := 0.004; targetMultiplier := 2; amount := 0.1 |})];
           dailyOperations := 2;
           requests := ["foo"; "foo"; "foo"; "foo"]%string |}).
Proof. split; reflexivity. Qed.

(** C1 (amended): between two cycles the map binds each symbol at most
    once, and [buyCoin] for a symbol that has a position keeps it so: the
    keys are the same after the call.  The call is not rejected for that
    reason: when the fresh snapshot meets the admission predicate it returns
    [true], overwrites the position with the new entry price and stake, and
    counts one operation; when there is no data, or the capitalisation is
    below 2500 or above 7500, or the price is above 0.01, it returns [false]
    and map and count are as before. *)
Theorem one_position_per_symbol (getSentiment : string -> Q) (market : Oracle)
    (s : State) (coin : string) (amountInSol : Q) (p : Position) :
  reachable getSentiment market s ->
  JsMap.get (trackedCoins s) coin = Some p ->
  let s' := exec (buyCoin market coin amountInSol) s in
  NoDup (JsMap.keys (trackedCoins s))
  /\ JsMap.keys (trackedCoins s') = JsMap.keys (trackedCoins s)
  /\ (forall d, answer market s coin = Some d -> admission d ->
        result (buyCoin market coin amountInSol) s = Ok true
        /\ JsMap.get (trackedCoins s') coin = Some (opened d amountInSol)
        /\ dailyOperations s' = S (dailyOperations s))
  /\ (answer market s coin = None ->
        result (buyCoin market coin amountInSol) s = Ok false
        /\ trackedCoins s' = trackedCoins s
        /\ dailyOperations s' = dailyOperations s)
  /\ (forall d, answer market s coin = Some d ->
        marketCap d < 2500 \/ 7500 < marketCap d \/ 0.01 < price d ->
        result (buyCoin market coin amountInSol) s = Ok false
        /\ trackedCoins s' = trackedCoins s
        /\ dailyOperations s' = dailyOperations s)
  /\ (result (buyCoin market coin amountInSol) s <> Ok true ->
        result (buyCoin market coin amountInSol) s = Ok false
        /\ trackedCoins s' = trackedCoins s
        /\ dailyOperations s' = dailyOperations s).
Proof.
  intros Hr Hget s'. unfold s', exec, result. rewrite buyCoin_run.
  split; [apply (reachable_steady _ _ _ Hr) |].
  destruct (answer market s coin) as [d|].
  - destruct (passes d) eqn:E; cbn [fst snd trackedCoins dailyOperations asked].
    + split; [exact (keys_set_tracked _ _ _ _ Hget) |].
      split; [| split; [discriminate | split]].
      * intros d' Hd' _. injection Hd' as <-.
        split; [reflexivity |]. split; [apply get_set_same | reflexivity].
      * intros d' Hd' Hrej. injection Hd' as <-.
        apply rejected_fails in Hrej. congruence.
      * intros H. now elim H.
    + split; [reflexivity |].
      split; [| split; [discriminate | split]].
      * intros d' Hd' Hadm. injection Hd' as <-.
        apply admission_passes in Hadm. congruence.
      * intros d' _ _. repeat split.
      * intros _. repeat split.
  - cbn [fst snd trackedCoins dailyOperations asked].
    split; [reflexivity |]. split; [discriminate |].
    split; [intros _; repeat split |]. split; [discriminate |].
    intros _. repeat split.
Qed.

Lemma one_position_per_symbol_witness :
  JsMap.keys
    (trackedCoins
       (exec (buyCoin (Scenario.jump 3 0.005 0.004) "FOO" 0.1)
          (exec (runDailyOperations Scenario.positive
                   (Scenario.jump 3 0.005 0.004)
                   (Scenario.post "$FOO to the moon!")) initial)))
  = ["FOO"%string].
Proof.
  exact (proj1 (proj2
    (one_position_per_symbol Scenario.positive (Scenario.jump 3 0.005 0.004)
       (exec (runDailyOperations Scenario.positive
                (Scenario.jump 3 0.005 0.004)
                (Scenario.post "$FOO to the moon!")) initial)
       "FOO"%string 0.1 Scenario.foo
       (reachable_cycle _ _ _ _ (reachable_initial _ _))
       eq_refl))).
Defined.

(** ** The gate of a buy *)

(** C4, at the failing input: an answer without a price gives the snapshot
    [{price: 0, marketCap: 5000}], which is not admissible, and [buyCoin]
    buys on it; so it does at the ceiling price 0.01; and in a whole cycle
    the guard of [runDailyOperations] is passed on the first snapshot while
    the position is opened on the second. *)
Theorem buyCoin_buys_unadmitted :
  (answer Scenario.unpriced initial "FOO"
   = Some {| price := 0; marketCap := 5000 |}
   /\ ~ admission {| price := 0; marketCap := 5000 |}
   /\ buyCoin Scenario.unpriced "FOO" 0.1 initial
      = (Ok true,
         {| trackedCoins :=
              [("FOO"%string,
                {| buyPrice := 0; targetMultiplier := 2; amount := 0.1 |})];
            dailyOperations := 1;
            requests := ["foo"%string] |}))
  /\ (~ admission {| price := 0.01; marketCap := 5000 |}
      /\ result (buyCoin (Scenario.flat 0.01) "FOO" 0.1) initial = Ok true)
  /\ exec (runDailyOperations Scenario.positive Scenario.gap
             (Scenario.post "$FOO to the moon!")) initial
     = {| trackedCoins :=
            [("FOO"%string,
              {| buyPrice := 0; targetMultiplier := 2; amount := 0.1 |})];
          dailyOperations := 1;
          requests := ["foo"; "foo"; "foo"]%string |}.
Proof.
  split; [split; [reflexivity | split; [| reflexivity]] | split; [split |]].
  - intros [H _]. revert H. cbn. apply Qlt_irrefl.
  - intros [_ [H _]]. revert H. cbn. apply Qlt_irrefl.
  - reflexivity.
  - reflexivity.
Qed.

(** What the code does guarantee.  A position that a cycle adds to the map
    belongs to the top candidate, whose first snapshot met the admission
    predicate; it is opened on the second snapshot, which passed the guards
    of [buyCoin]. *)

Lemma get_delete_Some m k c p :
  NoDup (JsMap.keys m) ->
  JsMap.get (JsMap.delete m k) c = Some p -> JsMap.get m c = Some p.
Proof.
  intros Hnd H. destruct (string_dec c k) as [-> | Hne].
  - rewrite get_delete_same in H by exact Hnd. discriminate.
  - now rewrite get_delete_other in H.
Qed.

Lemma sweep_get_Some market todo s c p :
  NoDup (JsMap.keys (trackedCoins s)) ->
  JsMap.get (trackedCoins (exec (sweep market todo) s)) c = Some p ->
  JsMap.get (trackedCoins s) c = Some p.
Proof.
  revert s. induction todo as [|coin rest IH]; intros s Hnd H; [exact H |].
  rewrite exec_sweep_cons in H.
  destruct (sellCoin_tracked market coin s) as [E | E].
  - apply IH in H; rewrite E in *; auto.
  - apply IH in H; rewrite E in *.
    + exact (get_delete_Some _ _ _ _ Hnd H).
    + now apply NoDup_keys_delete.
Qed.

Lemma cycle_opens_only_admitted (getSentiment : string -> Q) (market : Oracle)
    (res : SearchResult) (s : State) (c : string) (p : Position) :
  reachable getSentiment market s ->
  JsMap.get (trackedCoins s) c = None ->
  JsMap.get
    (trackedCoins (exec (runDailyOperations getSentiment market res) s)) c
  = Some p ->
  exists top rest d1 d2,
    analyzeTweets getSentiment res = top :: rest
    /\ c = Str.replaceDollar (coin top)
    /\ answer market s c = Some d1 /\ admission d1
    /\ answer market (asked c s) c = Some d2
    /\ 2500 <= marketCap d2 /\ marketCap d2 <= 7500 /\ price d2 <= 0.01
    /\ p = opened d2 0.1.
Proof.
  intros Hr Hnone. pose proof (reachable_steady _ _ _ Hr) as [Hnd _].
  unfold exec. rewrite runDailyOperations_run.
  destruct (10 <=? dailyOperations s)%nat; [cbn; congruence |].
  destruct (analyzeTweets getSentiment res) as [|top rest]; [cbn; congruence |].
  cbv zeta. set (c0 := Str.replaceDollar (coin top)).
  destruct (answer market s c0) as [d1|] eqn:Hd1; [| cbn; congruence].
  destruct (admitted d1) eqn:Ha.
  - destruct (buyCoin_tracked market c0 0.1 (asked c0 s))
      as [E | [d2 [Hd2 [Hp E]]]]; intros H.
    + apply sweep_get_Some in H; [| rewrite E; exact Hnd].
      rewrite E in H. cbn [asked trackedCoins] in H. congruence.
    + apply sweep_get_Some in H;
        [| rewrite E; now apply NoDup_keys_set].
      rewrite E in H. cbn [asked trackedCoins] in H.
      destruct (string_dec c c0) as [-> | Hne].
      * rewrite get_set_same in H. injection H as <-.
        apply passes_iff in Hp. apply admitted_iff in Ha.
        exists top, rest, d1, d2. tauto.
      * rewrite get_set_other in H by exact Hne. congruence.
  - intros H. apply sweep_get_Some in H; [| exact Hnd].
    cbn [asked trackedCoins] in H. congruence.
Qed.

(** Every position a cycle leaves in the map has the minimum multiplier, the
    stake of 0.1 and an entry price of at most 0.01. *)
Lemma wellOpened_set m k v :
  wellOpened v ->
  Forall (fun e => wellOpened (snd e)) m ->
  Forall (fun e => wellOpened (snd e)) (JsMap.set m k v).
Proof.
  intros Hv. induction 1 as [|[k0 v0] r H0 Hr IH]; simpl.
  - constructor; [exact Hv | constructor].
  - destruct (String.eqb k k0); constructor; auto.
Qed.

Lemma wellOpened_delete m k :
  Forall (fun e => wellOpened (snd e)) m ->
  Forall (fun e => wellOpened (snd e)) (JsMap.delete m k).
Proof.
  induction 1 as [|[k0 v0] r H0 Hr IH]; simpl; [constructor |].
  destruct (String.eqb k k0); [exact Hr | now constructor].
Qed.

Lemma wellOpened_sweep market todo s :
  Forall (fun e => wellOpened (snd e)) (trackedCoins s) ->
  Forall (fun e => wellOpened (snd e))
         (trackedCoins (exec (sweep market todo) s)).
Proof.
  revert s. induction todo as [|coin rest IH]; intros s H; [exact H |].
  rewrite exec_sweep_cons. apply IH.
  destruct (sellCoin_tracked market coin s) as [E | E]; rewrite E;
    [exact H | now apply wellOpened_delete].
Qed.

Lemma reachable_wellOpened getSentiment market s :
  reachable getSentiment market s ->
  Forall (fun e => wellOpened (snd e)) (trackedCoins s).
Proof.
  induction 1 as [|s res _ IH]; [constructor |].
  unfold exec. rewrite runDailyOperations_run.
  destruct (10 <=? dailyOperations s)%nat; [exact IH |].
  destruct (analyzeTweets getSentiment res) as [|top rest]; [exact IH |].
  cbv zeta. set (c0 := Str.replaceDollar (coin top)).
  destruct (answer market s c0) as [d1|]; [| exact IH].
  apply wellOpened_sweep. destruct (admitted d1); [| exact IH].
  destruct (buyCoin_tracked market c0 0.1 (asked c0 s))
    as [E | [d2 [_ [Hp E]]]]; rewrite E; [exact IH |].
  apply wellOpened_set; [| exact IH].
  apply passes_iff in Hp. repeat split. tauto.
Qed.

(** ** Positions *)

(** C6, at the failing input: the cycle admits FOO on a first snapshot
    priced 0.005, [buyCoin] fetches again, the second answer has no price, and
    the position is opened with entry price 0; its multiplier is the minimum
    one. *)
Theorem position_opened_at_zero :
  reachable Scenario.positive Scenario.gap
    (exec (runDailyOperations Scenario.positive Scenario.gap
             (Scenario.post "$FOO to the moon!")) initial)
  /\ exists p,
       JsMap.get
         (trackedCoins
            (exec (runDailyOperations Scenario.positive Scenario.gap
                     (Scenario.post "$FOO to the moon!")) initial)) "FOO"
       = Some p
       /\ ~ 0 < buyPrice p
       /\ targetMultiplier p = TARGET_MULTIPLIER_MIN.
Proof.
  split; [apply reachable_cycle, reachable_initial |].
  exists {| buyPrice := 0; targetMultiplier := 2; amount := 0.1 |}.
  split; [reflexivity | split; [apply Qlt_irrefl | reflexivity]].
Qed.

(** ** The sweep and the acquisition phase *)

(** C3, as the claim has it, fails: the cycle of the code and the cycle
    that sweeps the positions tracked before the acquisition phase part ways
    when the coin just bought has doubled by the time the sweep asks for its
    price. *)
Lemma sweep_is_not_over_earlier_positions :
  ~ (forall getSentiment market res s,
       runDailyOperations getSentiment market res s
       = runDailyOperations_preA getSentiment market res s).
Proof.
  intros H.
  specialize (H Scenario.positive (Scenario.jump 2 0.005 0.011)
                (Scenario.post "$FOO to the moon!") initial).
  vm_compute in H. discriminate.
Qed.

(** The same cycle, evaluated: FOO is bought, asked about a third time, and
    sold; sweeping the earlier positions would keep it. *)
Example bought_and_sold_in_one_cycle :
  exec (runDailyOperations Scenario.positive (Scenario.jump 2 0.005 0.011)
          (Scenario.post "$FOO to the moon!")) initial
  = {| trackedCoins := []; dailyOperations := 2;
       requests := ["foo"; "foo"; "foo"]%string |}
  /\ exec (runDailyOperations_preA Scenario.positive
             (Scenario.jump 2 0.005 0.011)
             (Scenario.post "$FOO to the moon!")) initial
     = {| trackedCoins := [("FOO"%string, Scenario.foo)];
          dailyOperations := 1;
          requests := ["foo"; "foo"]%string |}.
Proof. split; reflexivity. Qed.

Section SameCycle.

Variable getSentiment : string -> Q.
Variable market : Oracle.

(** C3 (amended): the sweep walks the map as the acquisition phase leaves
    it.  When a cycle buys a symbol that had no position, the requests of the
    cycle are the two of the acquisition phase, one per position tracked
    before, and a last one for the new symbol: [sellCoin] evaluates it in the
    same cycle.  If that answer prices it at the entry price times the
    multiplier or more, it is sold in the cycle that bought it; if there is
    no data it stays, as opened. *)
Theorem sweep_reaches_new_position (res : SearchResult) (s : State)
    (top : Candidate) (rest : list Candidate) (d1 d2 : CoinData) :
  reachable getSentiment market s ->
  (dailyOperations s < 10)%nat ->
  analyzeTweets getSentiment res = top :: rest ->
  let c := Str.replaceDollar (coin top) in
  JsMap.get (trackedCoins s) c = None ->
  answer market s c = Some d1 -> admitted d1 = true ->
  answer market (asked c s) c = Some d2 -> passes d2 = true ->
  let s' := exec (runDailyOperations getSentiment market res) s in
  let last := (List.length (requests s) + 2
               + List.length (trackedCoins s))%nat in
  requests s'
  = (requests s ++ [token c; token c]
     ++ map token (JsMap.keys (trackedCoins s)) ++ [token c])%list
  /\ (forall d3,
        market last (token c) = Dex.Pairs (Some d3) ->
        price d2 * TARGET_MULTIPLIER_MIN <= price (snapshot d3) ->
        JsMap.get (trackedCoins s') c = None
        /\ (dailyOperations s + 2 <= dailyOperations s')%nat)
  /\ (unavailable (market last (token c)) ->
        JsMap.get (trackedCoins s') c = Some (opened d2 0.1)).
Proof.
  intros Hr Hlim Htop c Hnone Hd1 Ha Hd2 Hp s' last.
  pose proof (reachable_steady _ _ _ Hr) as [Hnd _].
  assert (Hs' : s' = exec (sellCoin market c)
                  (exec (sweep market (JsMap.keys (trackedCoins s)))
                     {| trackedCoins :=
                          JsMap.set (trackedCoins s) c (opened d2 0.1);
                        dailyOperations := S (dailyOperations s);
                        requests := requests (asked c (asked c s)) |})).
  { unfold s', exec at 1. rewrite runDailyOperations_run.
    apply Nat.leb_gt in Hlim. rewrite Hlim, Htop. cbv zeta. fold c.
    rewrite Hd1, Ha. unfold exec at 1 2. rewrite buyCoin_run, Hd2, Hp.
    cbn [snd trackedCoins asked].
    rewrite (keys_set_fresh _ _ _ Hnone).
    cbn [dailyOperations asked].
    match goal with
    | |- snd (sweep market ?l ?x) = ?r =>
        change (exec (sweep market l) x = r)
    end.
    rewrite sweep_app, exec_sweep_cons. reflexivity. }
  set (s1 := {| trackedCoins := JsMap.set (trackedCoins s) c (opened d2 0.1);
                dailyOperations := S (dailyOperations s);
                requests := requests (asked c (asked c s)) |}) in Hs'.
  set (s2 := exec (sweep market (JsMap.keys (trackedCoins s))) s1) in Hs'.
  assert (Hreq2 : requests s2
                  = (requests s ++ [token c; token c]
                     ++ map token (JsMap.keys (trackedCoins s)))%list).
  { unfold s2. rewrite sweep_requests. unfold s1.
    cbn [requests asked]. now rewrite <- !app_assoc. }
  assert (Hget2 : JsMap.get (trackedCoins s2) c = Some (opened d2 0.1)).
  { unfold s2. rewrite sweep_get_other by now apply get_None_keys.
    unfold s1. cbn [trackedCoins]. apply get_set_same. }
  assert (Hnd2 : NoDup (JsMap.keys (trackedCoins s2))).
  { unfold s2. apply sweep_NoDup. unfold s1. cbn [trackedCoins].
    now apply NoDup_keys_set. }
  assert (Hlen2 : List.length (requests s2) = last).
  { rewrite Hreq2, !length_app, length_map. unfold JsMap.keys.
    rewrite length_map. unfold last. cbn [List.length]. lia. }
  assert (Hcount2 : (S (dailyOperations s) <= dailyOperations s2)%nat).
  { unfold s2. apply (sweep_count market _ s1). }
  rewrite Hs'. split; [| split].
  - rewrite sellCoin_requests, Hreq2. now rewrite <- !app_assoc.
  - intros d3 Hm Hprice. unfold exec. rewrite sellCoin_run.
    unfold answer. rewrite Hlen2, Hm, Hget2.
    cbn [opened buyPrice targetMultiplier].
    apply geb_ge in Hprice. rewrite Hprice.
    cbn [snd trackedCoins dailyOperations].
    split; [now apply get_delete_same | lia].
  - intros Hun. unfold exec. rewrite sellCoin_run. unfold answer.
    rewrite Hlen2. destruct Hun as [-> | ->]; exact Hget2.
Qed.

End SameCycle.

Lemma sweep_reaches_new_position_witness :
  requests (exec (runDailyOperations Scenario.positive
                    (Scenario.jump 2 0.005 0.011)
                    (Scenario.post "$FOO to the moon!")) initial)
  = ["foo"; "foo"; "foo"]%string
  /\ JsMap.get
       (trackedCoins
          (exec (runDailyOperations Scenario.positive
                   (Scenario.jump 2 0.005 0.011)
                   (Scenario.post "$FOO to the moon!")) initial)) "FOO"
     = None.
Proof.
  pose proof (sweep_reaches_new_position Scenario.positive
                (Scenario.jump 2 0.005 0.011)
                (Scenario.post "$FOO to the moon!") initial
                {| coin := "$FOO"; sentiment := 1;
                   tweet := "$FOO to the moon!" |} []
                {| price := 0.005; marketCap := 5000 |}
                {| price := 0.005; marketCap := 5000 |}
                (reachable_initial _ _)
                ltac:(vm_compute; lia) eq_refl eq_refl eq_refl eq_refl
                eq_refl eq_refl) as H.
  cbv zeta in H. destruct H as [Hreq [Hsold _]].
  split; [exact Hreq |].
  refine (proj1 (Hsold {| Dex.priceUsd := Some 0.011;
                          Dex.marketCap := Some 5000 |} eq_refl _)).
  vm_compute. discriminate.
Defined.

(** ** The scenarios of the specification *)

(** A ranking: two scores, each class in the order of its posts. *)
Example ranking_of_four_posts :
  map coin
    (analyzeTweets Scenario.mood
       (SearchOk [ {| text := "$AAA looks fine" |};
                   {| text := "$BBB to the moon" |};
                   {| text := "$CCC is a rug pull, moon" |};
                   {| text := "$DDD holds" |};
                   {| text := "$EEE moon soon" |} ]))
  = ["$BBB"; "$EEE"; "$AAA"; "$DDD"]%string.
Proof. reflexivity. Qed.

(** Scenario 1: a positive post on FOO and a snapshot of 0.005 at a
    capitalisation of 5000: one buy, one position. *)
Example scenario_buy :
  exec (runDailyOperations Scenario.positive (Scenario.flat 0.005)
          (Scenario.post "$FOO to the moon!")) initial
  = Scenario.holdingFoo.
Proof. reflexivity. Qed.

(** Scenario 2: FOO held from 0.005, new price 0.011: sold. *)
Example scenario_sell :
  sellCoin (Scenario.flat 0.011) "FOO" Scenario.holdingFoo
  = (Ok true,
     {| trackedCoins := []; dailyOperations := 2;
        requests := ["foo"; "foo"; "foo"; "foo"]%string |}).
Proof. reflexivity. Qed.

(** Scenario 3: new price 0.009: held. *)
Example scenario_hold :
  sellCoin (Scenario.flat 0.009) "FOO" Scenario.holdingFoo
  = (Ok false, asked "FOO" Scenario.holdingFoo).
Proof. reflexivity. Qed.

(** The boundary: new price 0.01, twice the entry price: sold. *)
Example scenario_boundary :
  result (sellCoin (Scenario.flat 0.01) "FOO") Scenario.holdingFoo = Ok true.
Proof. reflexivity. Qed.

(** Scenario 4: the count at the limit: the cycle does nothing, whatever the
    candidate. *)
Example scenario_exhausted :
  runDailyOperations Scenario.positive (Scenario.flat 0.005)
    (Scenario.post "$FOO to the moon!")
    {| trackedCoins := []; dailyOperations := 10; requests := [] |}
  = (Ok tt, {| trackedCoins := []; dailyOperations := 10; requests := [] |}).
Proof. reflexivity. Qed.

(** Scenario 5: no market data for FOO: held. *)
Example scenario_no_data :
  sellCoin Scenario.down "FOO" Scenario.holdingFoo
  = (Ok false, asked "FOO" Scenario.holdingFoo).
Proof. reflexivity. Qed.

(** * Further properties of the code *)

(** ** The market data lookup *)

(** X1: [getCoinData] never throws.  It returns [null] exactly when the
    request fails or the answer holds no pair; otherwise it returns the
    price and the capitalisation of the first pair, a missing one read as 0.
    It sends one request, for the lower-cased coin without its first [$],
    and touches neither the positions nor the count. *)
Theorem getCoinData_lookup (market : Oracle) (coin : string) (s : State) :
  (exists r, result (getCoinData market coin) s = Ok r)
  /\ (result (getCoinData market coin) s = Ok None
      <-> unavailable (market (List.length (requests s)) (token coin)))
  /\ (forall d,
        market (List.length (requests s)) (token coin) = Dex.Pairs (Some d) ->
        result (getCoinData market coin) s
        = Ok (Some {| price := match Dex.priceUsd d with
                               | Some q => q
                               | None => 0
                               end;
                      marketCap := match Dex.marketCap d with
                                   | Some q => q
                                   | None => 0
                                   end |}))
  /\ requests (exec (getCoinData market coin) s)
     = (requests s ++ [Str.replaceDollar (Str.toLowerCase coin)])%list
  /\ trackedCoins (exec (getCoinData market coin) s) = trackedCoins s
  /\ dailyOperations (exec (getCoinData market coin) s) = dailyOperations s.
Proof.
  unfold result, exec. rewrite getCoinData_run. cbn [fst snd].
  unfold answer, unavailable.
  split; [eauto |]. split; [| split; [| repeat split]].
  - destruct (market _ _) as [|[d|]]; split; auto; try discriminate;
      intros [H | H]; discriminate.
  - intros d ->. reflexivity.
Qed.

Lemma getCoinData_lookup_witness :
  result (getCoinData Scenario.unpriced "$FOO") initial
  = Ok (Some {| price := 0; marketCap := 5000 |}).
Proof.
  exact (proj1 (proj2 (proj2
    (getCoinData_lookup Scenario.unpriced "$FOO" initial))) _ eq_refl).
Defined.

(** ** The symbol pattern *)

Lemma upperRun_capitals s : capitals (Str.upperRun s).
Proof.
  induction s as [|c r IH]; simpl; [exact I |].
  destruct (Str.isUpper c) eqn:E; simpl; auto.
Qed.

Lemma upperRun_split s :
  exists post, s = Str.upperRun s ++ post /\ noCapitalAhead post.
Proof.
  induction s as [|c r IH]; simpl.
  - exists "". split; [reflexivity | intros c r H; discriminate].
  - destruct (Str.isUpper c) eqn:E.
    + destruct IH as [post [Hs Hp]]. exists post. simpl.
      split; [now rewrite <- Hs | exact Hp].
    + exists (String c r). split; [reflexivity |].
      intros c' r' H. injection H as <- <-. exact E.
Qed.

Lemma upperRun_app run post :
  capitals run -> noCapitalAhead post -> Str.upperRun (run ++ post) = run.
Proof.
  intros Hr Hp. induction run as [|c r IH]; simpl.
  - destruct post as [|c r]; [reflexivity |]. simpl.
    now rewrite (Hp c r eq_refl).
  - destruct Hr as [Hc Hr]. rewrite Hc. now rewrite IH.
Qed.

Lemma upperRun_empty s : Str.upperRun s = "" <-> noCapitalAhead s.
Proof.
  split.
  - intros H c r ->. simpl in H. now destruct (Str.isUpper c).
  - intros H. destruct s as [|c r]; [reflexivity |]. simpl.
    now rewrite (H c r eq_refl).
Qed.

Lemma noSymbol_tail x s : noSymbol (String x s) -> noSymbol s.
Proof.
  intros H a c b ->. apply (H (String x a) c b). reflexivity.
Qed.

Lemma matchCoin_None s : Str.matchCoin s = None <-> noSymbol s.
Proof.
  induction s as [|x r IH].
  - split; [| reflexivity]. intros _ a c b H. destruct a; discriminate.
  - cbn [Str.matchCoin]. destruct (Ascii.eqb_spec x "$") as [-> | Hx].
    + destruct (Str.upperRun r) as [|u run] eqn:Hu.
      * rewrite IH. split.
        -- intros Hr a c b H. destruct a as [|y a]; simpl in H.
           ++ injection H as ->. apply upperRun_empty in Hu.
              exact (Hu c b eq_refl).
           ++ injection H as _ ->. exact (Hr a c b eq_refl).
        -- apply noSymbol_tail.
      * split; [discriminate |]. intros H. exfalso.
        destruct r as [|c b]; [discriminate |].
        specialize (H "" c b eq_refl). simpl in Hu. rewrite H in Hu.
        discriminate.
    + rewrite IH. split; [| apply noSymbol_tail].
      intros Hr a c b H. destruct a as [|y a]; simpl in H.
      * injection H as -> _. now elim Hx.
      * injection H as _ ->. exact (Hr a c b eq_refl).
Qed.

Lemma matchCoin_skip pre rest :
  noSymbol (pre ++ "$") ->
  Str.matchCoin (pre ++ String "$" rest) = Str.matchCoin (String "$" rest).
Proof.
  induction pre as [|x pre IH]; intros Hn; [reflexivity |].
  assert (IH' := IH (noSymbol_tail _ _ Hn)).
  cbn [append Str.matchCoin]. fold (Str.matchCoin (String "$" rest)).
  destruct (Ascii.eqb_spec x "$") as [-> | Hx]; [| exact IH'].
  assert (Hu : Str.upperRun (pre ++ String "$" rest) = "").
  { apply upperRun_empty. intros c r H.
    destruct pre as [|y pre]; simpl in H.
    - injection H as <- _. reflexivity.
    - injection H as -> _.
      apply (Hn "" c (pre ++ "$")). reflexivity. }
  rewrite Hu. exact IH'.
Qed.

Lemma matchCoin_Some_sound s c :
  Str.matchCoin s = Some c ->
  exists pre run post,
    s = pre ++ String "$" (run ++ post)
    /\ c = String "$" run
    /\ ticker run
    /\ noCapitalAhead post
    /\ noSymbol (pre ++ "$").
Proof.
  revert c. induction s as [|x r IH]; intros c; [discriminate |].
  cbn [Str.matchCoin]. destruct (Ascii.eqb_spec x "$") as [-> | Hx].
  - destruct (Str.upperRun r) as [|u run] eqn:Hu.
    + intros H. destruct (IH c H) as [pre [run [post [-> [-> [Ht [Hp Hn]]]]]]].
      exists (String "$" pre), run, post.
      split; [reflexivity |]. split; [reflexivity |].
      split; [exact Ht |]. split; [exact Hp |].
      apply matchCoin_None. cbn [append Str.matchCoin].
      rewrite Ascii.eqb_refl.
      assert (Hu' : Str.upperRun (pre ++ "$") = "").
      { apply upperRun_empty. apply upperRun_empty in Hu.
        intros c0 r0 E. destruct pre as [|y pre]; simpl in E.
        - injection E as <- _. reflexivity.
        - injection E as -> _. exact (Hu c0 _ eq_refl). }
      rewrite Hu'. now apply matchCoin_None.
    + intros H. injection H as <-.
      destruct (upperRun_split r) as [post [Hr Hp]].
      exists "", (String u run), post. rewrite <- Hu.
      split; [simpl; now rewrite <- Hr |]. split; [reflexivity |].
      split; [split; [rewrite Hu; discriminate | apply upperRun_capitals] |].
      split; [exact Hp |].
      intros a c b H. destruct a as [|y a]; [discriminate |].
      destruct a; discriminate.
  - intros H. destruct (IH c H) as [pre [run [post [-> [-> [Ht [Hp Hn]]]]]]].
    exists (String x pre), run, post.
    split; [reflexivity |]. split; [reflexivity |].
    split; [exact Ht |]. split; [exact Hp |].
    intros a c b E. destruct a as [|y a]; simpl in E.
    + injection E as -> _. now elim Hx.
    + injection E as _ E. exact (Hn a c b E).
Qed.

Lemma matchCoin_Some_complete pre run post :
  ticker run -> noCapitalAhead post -> noSymbol (pre ++ "$") ->
  Str.matchCoin (pre ++ String "$" (run ++ post)) = Some (String "$" run).
Proof.
  intros [Hne Hcap] Hp Hn.
  rewrite (matchCoin_skip _ _ Hn). cbn [Str.matchCoin].
  rewrite Ascii.eqb_refl, (upperRun_app _ _ Hcap Hp).
  destruct run; [now elim Hne | reflexivity].
Qed.

(** X2: the pattern [/\$[A-Z]+/] finds nothing exactly in the texts
    without a [$] followed by a capital letter; and it finds [c] exactly when
    the text reads [pre $ run post] with [c] the [$] and the capitals [run],
    at least one, [post] not going on with a capital, and no [$] followed by
    a capital earlier: the leftmost occurrence, taken as long as it goes. *)
Theorem matchCoin_leftmost_longest (s : string) :
  (Str.matchCoin s = None <-> noSymbol s)
  /\ (forall c,
        Str.matchCoin s = Some c
        <-> exists pre run post,
              s = pre ++ String "$" (run ++ post)
              /\ c = String "$" run
              /\ ticker run
              /\ noCapitalAhead post
              /\ noSymbol (pre ++ "$")).
Proof.
  split; [apply matchCoin_None |]. intros c. split.
  - apply matchCoin_Some_sound.
  - intros [pre [run [post [-> [-> [Ht [Hp Hn]]]]]]].
    now apply matchCoin_Some_complete.
Qed.

(** ** The candidates *)

Section CandidateFacts.

Variable getSentiment : string -> Q.

Lemma candidateOf_length t : (List.length (candidateOf getSentiment t) <= 1)%nat.
Proof.
  unfold candidateOf. destruct (suspicious getSentiment t); [simpl; lia |].
  destruct (Str.matchCoin (text t)); simpl; lia.
Qed.

Lemma potentialCoins_length tweets :
  (List.length (potentialCoins getSentiment tweets) <= List.length tweets)%nat.
Proof.
  induction tweets as [|t r IH]; [simpl; lia |].
  cbn [potentialCoins flat_map]. rewrite length_app.
  pose proof (candidateOf_length t). fold (potentialCoins getSentiment r).
  cbn [List.length]. lia.
Qed.

Lemma replaceDollar_sigil run : Str.replaceDollar (String "$" run) = run.
Proof. reflexivity. Qed.

Lemma candidate_ticker res c :
  In c (analyzeTweets getSentiment res) ->
  ticker (Str.replaceDollar (coin c)).
Proof.
  destruct res as [|tweets]; [intros [] |]. cbn [analyzeTweets]. intros Hc.
  apply (Permutation_in _ (sort_perm _)) in Hc.
  apply in_flat_map in Hc. destruct Hc as [t [_ Hc]].
  apply candidateOf_In in Hc. destruct Hc as [_ [_ [_ Hm]]].
  apply matchCoin_Some_sound in Hm.
  destruct Hm as [pre [run [post [_ [-> [Hrun _]]]]]]. exact Hrun.
Qed.

(** X3: every candidate of a ranking stems from one post of the search:
    it carries the text of the post and its score, which is not negative, and
    its coin is the first [$]-and-capitals of that text, so that stripping
    the [$] leaves a ticker.  A post gives at most one candidate: the ranking
    is no longer than the search result. *)
Theorem candidates_stem_from_posts (tweets : list Tweet) :
  (forall c,
     In c (analyzeTweets getSentiment (SearchOk tweets)) ->
     exists t,
       In t tweets
       /\ tweet c = text t
       /\ sentiment c = getSentiment (text t)
       /\ 0 <= sentiment c
       /\ Str.matchCoin (text t) = Some (coin c)
       /\ coin c = String "$" (Str.replaceDollar (coin c))
       /\ ticker (Str.replaceDollar (coin c)))
  /\ (List.length (analyzeTweets getSentiment (SearchOk tweets))
      <= List.length tweets)%nat.
Proof.
  cbn [analyzeTweets]. split.
  - intros c Hc. apply (Permutation_in _ (sort_perm _)) in Hc.
    apply in_flat_map in Hc. destruct Hc as [t [Ht Hc]].
    apply candidateOf_In in Hc. destruct Hc as [Hs [Htw [Hsent Hm]]].
    exists t. split; [exact Ht |]. split; [exact Htw |].
    split; [exact Hsent |]. split.
    + unfold suspicious in Hs. rewrite !orb_false_iff in Hs.
      destruct Hs as [[Hs _] _]. apply ltb_ge in Hs. now rewrite Hsent.
    + split; [exact Hm |].
      apply matchCoin_Some_sound in Hm.
      destruct Hm as [pre [run [post [_ [-> [Hrun _]]]]]].
      rewrite replaceDollar_sigil. split; [reflexivity | exact Hrun].
  - rewrite (Permutation_length (sort_perm _)). apply potentialCoins_length.
Qed.

Lemma filter_head (f : Candidate -> bool) l x r :
  filter f l = x :: r ->
  exists before after,
    l = (before ++ x :: after)%list
    /\ Forall (fun y => f y = false) before
    /\ f x = true.
Proof.
  induction l as [|y l IH]; [discriminate |]. cbn [filter].
  destruct (f y) eqn:E.
  - intros H. injection H as -> _. exists [], l.
    split; [reflexivity | split; [constructor | exact E]].
  - intros H. destruct (IH H) as [before [after [-> [Hb Hx]]]].
    exists (y :: before), after.
    split; [reflexivity | split; [now constructor | exact Hx]].
Qed.

(** X4: the candidate the ranking puts first, the one the cycle goes on
    with, has the highest score of all candidates and is the one of the
    earliest post among those of that score. *)
Theorem top_candidate_is_first_best (tweets : list Tweet) (top : Candidate)
    (rest : list Candidate) :
  analyzeTweets getSentiment (SearchOk tweets) = top :: rest ->
  (forall c, In c (potentialCoins getSentiment tweets) ->
             sentiment c <= sentiment top)
  /\ exists before after,
       potentialCoins getSentiment tweets = (before ++ top :: after)%list
       /\ Forall (fun c => sentiment c < sentiment top) before.
Proof.
  cbn [analyzeTweets]. intros Htop.
  pose proof (sort_sorted (potentialCoins getSentiment tweets)) as Hs.
  pose proof (sort_perm (potentialCoins getSentiment tweets)) as Hp.
  rewrite Htop in Hs, Hp.
  assert (Hmax : forall c, In c (potentialCoins getSentiment tweets) ->
                           sentiment c <= sentiment top).
  { intros c Hc. apply (descending_head_max top rest c Hs).
    exact (Permutation_in _ (Permutation_sym Hp) Hc). }
  split; [exact Hmax |].
  pose proof (filter_sort (sentiment top)
                (potentialCoins getSentiment tweets)) as Hf.
  rewrite Htop in Hf. cbn [filter] in Hf. rewrite scored_refl in Hf.
  symmetry in Hf. destruct (filter_head _ _ _ _ Hf)
    as [before [after [Hl [Hb _]]]].
  exists before, after. split; [exact Hl |].
  rewrite Forall_forall in *. intros c Hc.
  assert (Hle : sentiment c <= sentiment top).
  { apply Hmax. rewrite Hl. apply in_or_app. now left. }
  specialize (Hb c Hc). unfold scored in Hb.
  apply Qle_lteq in Hle. destruct Hle as [Hlt | Heq]; [exact Hlt |].
  apply Qeq_bool_iff in Heq. congruence.
Qed.

End CandidateFacts.

Lemma top_candidate_is_first_best_witness :
  analyzeTweets Scenario.mood
    (SearchOk [ {| text := "$AAA looks fine" |};
                {| text := "$BBB to the moon" |};
                {| text := "$EEE moon soon" |} ])
  = [ {| coin := "$BBB"; sentiment := 4; tweet := "$BBB to the moon" |};
      {| coin := "$EEE"; sentiment := 4; tweet := "$EEE moon soon" |};
      {| coin := "$AAA"; sentiment := 1; tweet := "$AAA looks fine" |} ]
  /\ forall c,
       In c (potentialCoins Scenario.mood
               [ {| text := "$AAA looks fine" |};
                 {| text := "$BBB to the moon" |};
                 {| text := "$EEE moon soon" |} ]) ->
       sentiment c <= 4.
Proof.
  split; [reflexivity |].
  exact (proj1 (top_candidate_is_first_best Scenario.mood
                  [ {| text := "$AAA looks fine" |};
                    {| text := "$BBB to the moon" |};
                    {| text := "$EEE moon soon" |} ]
                  {| coin := "$BBB"; sentiment := 4;
                     tweet := "$BBB to the moon" |}
                  [ {| coin := "$EEE"; sentiment := 4;
                       tweet := "$EEE moon soon" |};
                    {| coin := "$AAA"; sentiment := 1;
                       tweet := "$AAA looks fine" |} ]
                  eq_refl)).
Defined.

(** ** One buy, one sale *)

Lemma delete_set_fresh m k v :
  JsMap.get m k = None -> JsMap.delete (JsMap.set m k v) k = m.
Proof.
  induction m as [|[k0 v0] r IH]; simpl.
  - intros _. now rewrite String.eqb_refl.
  - destruct (String.eqb k k0) eqn:E; [discriminate |].
    intros H. simpl. rewrite E. now rewrite IH.
Qed.

Section Trades.

Variable market : Oracle.

(** X5: [buyCoin] buys exactly when there is data and none of its three
    tests rejects it: the capitalisation is not above 7500, not below 2500,
    and the price is not above 0.01; nothing asks for a positive price.
    Whatever it answers, no other symbol's position changes; and a symbol that
    had no position is put after the ones that were there. *)
Theorem buyCoin_decision (coin : string) (amountInSol : Q) (s : State) :
  (result (buyCoin market coin amountInSol) s = Ok true
   <-> exists d, answer market s coin = Some d
                 /\ ~ 7500 < marketCap d /\ ~ marketCap d < 2500
                 /\ ~ 0.01 < price d)
  /\ (result (buyCoin market coin amountInSol) s = Ok true
      \/ result (buyCoin market coin amountInSol) s = Ok false)
  /\ (forall other, other <> coin ->
        JsMap.get (trackedCoins (exec (buyCoin market coin amountInSol) s))
          other
        = JsMap.get (trackedCoins s) other)
  /\ (JsMap.get (trackedCoins s) coin = None ->
      result (buyCoin market coin amountInSol) s = Ok true ->
      JsMap.keys (trackedCoins (exec (buyCoin market coin amountInSol) s))
      = (JsMap.keys (trackedCoins s) ++ [coin])%list).
Proof.
  unfold result, exec. rewrite buyCoin_run.
  destruct (answer market s coin) as [d|]; [destruct (passes d) eqn:E |];
    cbn [fst snd trackedCoins asked].
  - split; [| split; [now left | split]].
    + split; [intros _ | reflexivity]. exists d. split; [reflexivity |].
      now apply passes_tests.
    + intros other Hne. now apply get_set_other.
    + intros Hnone _. now apply keys_set_fresh.
  - split; [| split; [now right | split; [reflexivity | discriminate]]].
    split; [discriminate |]. intros [d' [Hd H]]. injection Hd as <-.
    apply passes_tests in H. congruence.
  - split; [| split; [now right | split; [reflexivity | discriminate]]].
    split; [discriminate | intros [d [H _]]; discriminate].
Qed.

(** X6: a buy of a symbol that had no position, followed by a sale of it,
    leaves the map as it was before the two, and the count two higher. *)
Theorem buy_then_sell_restores (coin : string) (amountInSol : Q) (s : State) :
  JsMap.get (trackedCoins s) coin = None ->
  result (buyCoin market coin amountInSol) s = Ok true ->
  result (sellCoin market coin) (exec (buyCoin market coin amountInSol) s)
  = Ok true ->
  trackedCoins
    (exec (sellCoin market coin) (exec (buyCoin market coin amountInSol) s))
  = trackedCoins s
  /\ dailyOperations
       (exec (sellCoin market coin) (exec (buyCoin market coin amountInSol) s))
     = (dailyOperations s + 2)%nat.
Proof.
  intros Hnone. unfold result, exec. rewrite buyCoin_run.
  destruct (answer market s coin) as [d|]; [| discriminate].
  destruct (passes d); [| discriminate]. cbn [fst snd]. intros _.
  rewrite sellCoin_run. cbn [trackedCoins]. rewrite get_set_same.
  destruct (answer market _ coin) as [d'|]; [| discriminate].
  destruct (Num.geb _ _); [| discriminate].
  cbn [fst snd trackedCoins dailyOperations]. intros _.
  split; [now apply delete_set_fresh | lia].
Qed.

End Trades.

Lemma buy_then_sell_restores_witness :
  trackedCoins
    (exec (sellCoin (Scenario.jump 1 0.005 0.011) "FOO")
       (exec (buyCoin (Scenario.jump 1 0.005 0.011) "FOO" 0.1) initial))
  = []
  /\ dailyOperations
       (exec (sellCoin (Scenario.jump 1 0.005 0.011) "FOO")
          (exec (buyCoin (Scenario.jump 1 0.005 0.011) "FOO" 0.1) initial))
     = 2%nat.
Proof.
  exact (buy_then_sell_restores (Scenario.jump 1 0.005 0.011) "FOO" 0.1
           initial eq_refl eq_refl eq_refl).
Defined.

(** X7: when a position with a positive entry price is sold, the profit
    named in the message is at least the target multiplier less one, in
    percent: 100 for the multiplier 2 of every position. *)
Theorem sale_profit (market : Oracle) (coin : string) (s : State)
    (p : Position) (d : CoinData) :
  JsMap.get (trackedCoins s) coin = Some p ->
  0 < buyPrice p ->
  answer market s coin = Some d ->
  result (sellCoin market coin) s = Ok true ->
  (targetMultiplier p - 1) * 100 <= profitPercent (price d) (buyPrice p).
Proof.
  intros Hget Hpos Hd. unfold result. rewrite sellCoin_run, Hd, Hget.
  destruct (Num.geb _ _) eqn:E; [| discriminate]. intros _.
  apply geb_ge in E. unfold profitPercent.
  assert (Hne : ~ buyPrice p == 0).
  { intros H. rewrite H in Hpos. exact (Qlt_irrefl _ Hpos). }
  assert (Hq : targetMultiplier p - 1 <= (price d - buyPrice p) / buyPrice p).
  { apply Qle_shift_div_l; [exact Hpos |].
    setoid_replace ((targetMultiplier p - 1) * buyPrice p)
      with (buyPrice p * targetMultiplier p - buyPrice p) by ring.
    unfold Qminus. apply Qplus_le_l. exact E. }
  apply Qmult_le_compat_r; [exact Hq | discriminate].
Qed.

Lemma sale_profit_witness :
  (2 - 1) * 100 <= profitPercent 0.011 0.005.
Proof.
  exact (sale_profit (Scenario.flat 0.011) "FOO" Scenario.holdingFoo
           Scenario.foo {| price := 0.011; marketCap := 5000 |}
           eq_refl eq_refl eq_refl eq_refl).
Defined.

(** The profit of the second scenario of the specification. *)
Example profit_of_scenario_sell : profitPercent 0.011 0.005 == 120.
Proof. reflexivity. Qed.

(** ** The sweep and the cycle, in numbers *)

Lemma length_delete_tracked m k p :
  JsMap.get m k = Some p ->
  S (List.length (JsMap.delete m k)) = List.length m.
Proof.
  induction m as [|[k0 v0] r IH]; simpl; [discriminate |].
  destruct (String.eqb k k0); [reflexivity |].
  intros H. simpl. now rewrite IH.
Qed.

Lemma get_In m k p : JsMap.get m k = Some p -> In (k, p) m.
Proof.
  induction m as [|[k0 v0] r IH]; simpl; [discriminate |].
  destruct (String.eqb_spec k k0) as [-> | Hne].
  - intros H. injection H as ->. now left.
  - intros H. right. now apply IH.
Qed.

Lemma keys_pred_set (K : string -> Prop) m k v :
  K k -> Forall (fun e => K (fst e)) m ->
  Forall (fun e => K (fst e)) (JsMap.set m k v).
Proof.
  intros Hk. induction 1 as [|[k0 v0] r H0 Hr IH]; simpl.
  - constructor; [exact Hk | constructor].
  - destruct (String.eqb k k0); constructor; auto.
Qed.

Lemma keys_pred_delete (K : string -> Prop) m k :
  Forall (fun e => K (fst e)) m ->
  Forall (fun e => K (fst e)) (JsMap.delete m k).
Proof.
  induction 1 as [|[k0 v0] r H0 Hr IH]; simpl; [constructor |].
  destruct (String.eqb k k0); [exact Hr | now constructor].
Qed.

Section Numbers.

Variable getSentiment : string -> Q.
Variable market : Oracle.

Lemma sellCoin_conserves coin s :
  (dailyOperations (exec (sellCoin market coin) s)
   + size (trackedCoins (exec (sellCoin market coin) s))
   = dailyOperations s + size (trackedCoins s))%nat.
Proof.
  unfold exec, size. rewrite sellCoin_run.
  destruct (answer market s coin) as [d|]; [| reflexivity].
  destruct (JsMap.get (trackedCoins s) coin) as [p|] eqn:Hget; [| reflexivity].
  destruct (Num.geb _ _); [| reflexivity].
  cbn [snd trackedCoins dailyOperations].
  pose proof (length_delete_tracked _ _ _ Hget). lia.
Qed.

Lemma sweep_conserves todo s :
  (dailyOperations (exec (sweep market todo) s)
   + size (trackedCoins (exec (sweep market todo) s))
   = dailyOperations s + size (trackedCoins s))%nat.
Proof.
  revert s. induction todo as [|coin rest IH]; intros s; [reflexivity |].
  rewrite exec_sweep_cons, IH. apply sellCoin_conserves.
Qed.

Lemma keys_pred_sweep (K : string -> Prop) todo s :
  Forall (fun e => K (fst e)) (trackedCoins s) ->
  Forall (fun e => K (fst e)) (trackedCoins (exec (sweep market todo) s)).
Proof.
  revert s. induction todo as [|coin rest IH]; intros s H; [exact H |].
  rewrite exec_sweep_cons. apply IH.
  destruct (sellCoin_tracked market coin s) as [E | E]; rewrite E;
    [exact H | now apply keys_pred_delete].
Qed.

(** X8: a sweep counts each of its sales once: the count rises by the
    number of positions that leave the map.  It sends one request per symbol
    it is given, in order; and a position that is in the map afterwards was
    there before, with the same fields. *)
Theorem sweep_counts_sales (todo : list string) (s : State) :
  (dailyOperations (exec (sweep market todo) s)
   + size (trackedCoins (exec (sweep market todo) s))
   = dailyOperations s + size (trackedCoins s))%nat
  /\ requests (exec (sweep market todo) s)
     = (requests s ++ map token todo)%list
  /\ (NoDup (JsMap.keys (trackedCoins s)) ->
      forall c p,
        JsMap.get (trackedCoins (exec (sweep market todo) s)) c = Some p ->
        JsMap.get (trackedCoins s) c = Some p).
Proof.
  split; [apply sweep_conserves |]. split; [apply sweep_requests |].
  intros Hnd c p. now apply sweep_get_Some.
Qed.

(** What one cycle can add. *)
Lemma cycle_growth res s :
  (dailyOperations s
   <= dailyOperations (exec (runDailyOperations getSentiment market res) s)
   <= dailyOperations s + 2 + size (trackedCoins s))%nat
  /\ (size (trackedCoins
              (exec (runDailyOperations getSentiment market res) s))
      <= size (trackedCoins s) + 1)%nat.
Proof.
  unfold size, exec at 1 2 3. rewrite runDailyOperations_run.
  destruct (10 <=? dailyOperations s)%nat; [cbn; lia |].
  destruct (analyzeTweets getSentiment res) as [|top rest]; [cbn; lia |].
  cbv zeta. set (c := Str.replaceDollar (coin top)).
  destruct (answer market s c) as [d|]; [| cbn; lia].
  set (s1 := if admitted d then exec (buyCoin market c 0.1) (asked c s)
             else asked c s).
  assert (H1 : (dailyOperations s <= dailyOperations s1
                <= dailyOperations s + 1)%nat
               /\ (List.length (trackedCoins s1)
                   <= List.length (trackedCoins s) + 1)%nat).
  { unfold s1. destruct (admitted d); [| cbn; lia].
    assert (Hc : (dailyOperations s
                  <= dailyOperations (exec (buyCoin market c 0.1) (asked c s))
                  <= dailyOperations s + 1)%nat).
    { rewrite buyCoin_count. cbn [asked dailyOperations].
      destruct (result (buyCoin market c 0.1) (asked c s)) as [[|]|]; lia. }
    split; [exact Hc |].
    destruct (buyCoin_tracked market c 0.1 (asked c s))
      as [E | [d' [_ [_ E]]]]; rewrite E; cbn [asked trackedCoins].
    - lia.
    - pose proof (length_set (trackedCoins s) c (opened d' 0.1)). lia. }
  fold (exec (sweep market (JsMap.keys (trackedCoins s1))) s1).
  pose proof (sweep_count market (JsMap.keys (trackedCoins s1)) s1) as Hc.
  pose proof (sweep_length market (JsMap.keys (trackedCoins s1)) s1) as Hl.
  assert (Hk : List.length (JsMap.keys (trackedCoins s1))
               = List.length (trackedCoins s1)) by apply length_map.
  rewrite Hk in Hc. lia.
Qed.

(** X9: a cycle never throws; it never lowers the count and raises it by
    at most two more than the number of positions it found; and it adds at
    most one position. *)
Theorem cycle_bounds (res : SearchResult) (s : State) :
  result (runDailyOperations getSentiment market res) s = Ok tt
  /\ (dailyOperations s
      <= dailyOperations (exec (runDailyOperations getSentiment market res) s)
      <= dailyOperations s + 2 + size (trackedCoins s))%nat
  /\ (size (trackedCoins
              (exec (runDailyOperations getSentiment market res) s))
      <= size (trackedCoins s) + 1)%nat.
Proof.
  split; [apply runDailyOperations_returns | apply cycle_growth].
Qed.

Lemma runCycles_exhausted feed s :
  (10 <= dailyOperations s)%nat ->
  runCycles getSentiment market feed s = s.
Proof.
  intros H. induction feed as [|res later IH]; [reflexivity |].
  cbn [runCycles]. unfold exec.
  now rewrite (runDailyOperations_exhausted _ _ _ _ H).
Qed.

Lemma runCycles_count feed s :
  (dailyOperations s
   <= dailyOperations (runCycles getSentiment market feed s))%nat.
Proof.
  revert s. induction feed as [|res later IH]; intros s; [cbn; lia |].
  cbn [runCycles].
  specialize (IH (exec (runDailyOperations getSentiment market res) s)).
  pose proof (proj1 (cycle_growth res s)). lia.
Qed.

(** X10: the count is never reset.  It does not go down over any run of
    cycles, and once it has reached 10 every later cycle leaves the engine
    exactly as it is: nothing is bought, nothing is sold, nothing is asked,
    for good. *)
Theorem budget_never_resets (feed : list SearchResult) (s : State) :
  (dailyOperations s
   <= dailyOperations (runCycles getSentiment market feed s))%nat
  /\ ((10 <= dailyOperations s)%nat ->
      runCycles getSentiment market feed s = s).
Proof.
  split; [apply runCycles_count | apply runCycles_exhausted].
Qed.

(** X11: as long as the search fails or yields no candidate, the engine
    does nothing at all: no request is sent and no tracked position is looked
    at, let alone sold.  The same holds for the positions in a cycle whose top
    candidate has no market data: the cycle ends after that one request. *)
Theorem no_candidate_no_sweep (s : State) :
  (forall feed,
     Forall (fun res => analyzeTweets getSentiment res = []) feed ->
     runCycles getSentiment market feed s = s)
  /\ (forall res top rest,
        analyzeTweets getSentiment res = top :: rest ->
        (dailyOperations s < 10)%nat ->
        answer market s (Str.replaceDollar (coin top)) = None ->
        runDailyOperations getSentiment market res s
        = (Ok tt, asked (Str.replaceDollar (coin top)) s)).
Proof.
  split.
  - intros feed H. induction H as [|res later Hres _ IH]; [reflexivity |].
    cbn [runCycles]. unfold exec. rewrite runDailyOperations_run, Hres.
    destruct (10 <=? dailyOperations s)%nat; exact IH.
  - intros res top rest Htop Hlim Hnone. rewrite runDailyOperations_run.
    apply Nat.leb_gt in Hlim. rewrite Hlim, Htop. cbv zeta.
    now rewrite Hnone.
Qed.

End Numbers.

(** ** What the map holds *)

Section Holdings.

Variable getSentiment : string -> Q.
Variable market : Oracle.



(** X13: where a position comes from.  A position found in the map after
    a cycle either was there before, unchanged, or is the one the cycle
    opened: its symbol is the top candidate's, without the [$]; the snapshot
    the cycle fetched met the admission test; and its entry price is the
    price of the second snapshot, the one [buyCoin] fetched, which none of
    the tests of [buyCoin] rejected: its capitalisation is not above 7500 and
    not below 2500, and its price is not above 0.01. *)
Theorem cycle_position_origin (res : SearchResult) (s : State) (c : string)
    (p : Position) :
  reachable getSentiment market s ->
  JsMap.get
    (trackedCoins (exec (runDailyOperations getSentiment market res) s)) c
  = Some p ->
  JsMap.get (trackedCoins s) c = Some p
  \/ exists top rest d1 d2,
       analyzeTweets getSentiment res = top :: rest
       /\ c = Str.replaceDollar (coin top)
       /\ answer market s c = Some d1 /\ admission d1
       /\ answer market (asked c s) c = Some d2
       /\ ~ 7500 < marketCap d2 /\ ~ marketCap d2 < 2500
       /\ ~ 0.01 < price d2
       /\ p = {| buyPrice := price d2;
                 targetMultiplier := TARGET_MULTIPLIER_MIN;
                 amount := 0.1 |}.
Proof.
  intros Hr. pose proof (reachable_steady _ _ _ Hr) as [Hnd _].
  unfold exec. rewrite runDailyOperations_run.
  destruct (10 <=? dailyOperations s)%nat; [now left |].
  destruct (analyzeTweets getSentiment res) as [|top rest]; [now left |].
  cbv zeta. set (c0 := Str.replaceDollar (coin top)).
  destruct (answer market s c0) as [d1|] eqn:Hd1; [| now left].
  destruct (admitted d1) eqn:Ha.
  - destruct (buyCoin_tracked market c0 0.1 (asked c0 s))
      as [E | [d2 [Hd2 [Hp E]]]]; intros H.
    + apply sweep_get_Some in H; [| rewrite E; exact Hnd].
      rewrite E in H. now left.
    + apply sweep_get_Some in H;
        [| rewrite E; now apply NoDup_keys_set].
      rewrite E in H. cbn [asked trackedCoins] in H.
      destruct (string_dec c c0) as [-> | Hne].
      * rewrite get_set_same in H. injection H as <-.
        apply passes_tests in Hp. apply admitted_iff in Ha.
        right. exists top, rest, d1, d2. unfold opened. tauto.
      * rewrite get_set_other in H by exact Hne. now left.
  - intros H. apply sweep_get_Some in H; [| exact Hnd]. now left.
Qed.

(** X14: every position the engine holds has the target multiplier 2,
    the minimum, which lies within the configured range; the stake 0.1; and
    an entry price that is not above 0.01. *)
Theorem positions_as_opened (s : State) (c : string) (p : Position) :
  reachable getSentiment market s ->
  JsMap.get (trackedCoins s) c = Some p ->
  targetMultiplier p = 2
  /\ TARGET_MULTIPLIER_MIN <= targetMultiplier p
  /\ targetMultiplier p <= TARGET_MULTIPLIER_MAX
  /\ amount p = 0.1
  /\ ~ 0.01 < buyPrice p.
Proof.
  intros Hr Hget.
  pose proof (reachable_wellOpened _ _ _ Hr) as Hall.
  rewrite Forall_forall in Hall.
  destruct (Hall _ (get_In _ _ _ Hget)) as [Hm [Ha Hb]]. cbn [snd] in *.
  rewrite Hm. repeat split; auto; try discriminate.
  now apply Qle_not_lt.
Qed.

Lemma reachable_tickers s :
  reachable getSentiment market s ->
  Forall (fun e => ticker (fst e)) (trackedCoins s).
Proof.
  induction 1 as [|s res _ IH]; [constructor |].
  unfold exec. rewrite runDailyOperations_run.
  destruct (10 <=? dailyOperations s)%nat; [exact IH |].
  destruct (analyzeTweets getSentiment res) as [|top rest] eqn:Htop;
    [exact IH |].
  cbv zeta. set (c0 := Str.replaceDollar (coin top)).
  destruct (answer market s c0) as [d1|]; [| exact IH].
  apply keys_pred_sweep. destruct (admitted d1); [| exact IH].
  destruct (buyCoin_tracked market c0 0.1 (asked c0 s))
    as [E | [d2 [_ [_ E]]]]; rewrite E; [exact IH |].
  apply keys_pred_set; [| exact IH].
  apply (candidate_ticker getSentiment res top). rewrite Htop. now left.
Qed.

(** X15: the symbols the engine tracks are tickers: capital letters, at
    least one, and no [$]; and no symbol is tracked twice. *)
Theorem tracked_symbols_are_tickers (s : State) (c : string) :
  reachable getSentiment market s ->
  In c (JsMap.keys (trackedCoins s)) ->
  ticker c /\ Str.replaceDollar c = c
  /\ NoDup (JsMap.keys (trackedCoins s)).
Proof.
  intros Hr Hc. pose proof (reachable_tickers _ Hr) as Hall.
  unfold JsMap.keys in Hc. apply in_map_iff in Hc.
  destruct Hc as [[k v] [<- He]]. rewrite Forall_forall in Hall.
  specialize (Hall _ He). cbn [fst] in *.
  split; [exact Hall |]. split; [| apply (reachable_steady _ _ _ Hr)].
  destruct Hall as [_ Hcap]. clear He. induction k as [|x k IHk];
    [reflexivity |].
  destruct Hcap as [Hx Hk]. cbn [Str.replaceDollar].
  destruct (Ascii.eqb_spec x "$") as [-> | _]; [discriminate |].
  now rewrite IHk.
Qed.

End Holdings.


Lemma cycle_position_origin_witness :
  JsMap.get (trackedCoins initial) "FOO" = Some Scenario.foo
  \/ exists top rest d1 d2,
       analyzeTweets Scenario.positive (Scenario.post "$FOO to the moon!")
       = top :: rest
       /\ "FOO"%string = Str.replaceDollar (coin top)
       /\ answer (Scenario.flat 0.005) initial "FOO" = Some d1
       /\ admission d1
       /\ answer (Scenario.flat 0.005) (asked "FOO" initial) "FOO" = Some d2
       /\ ~ 7500 < marketCap d2 /\ ~ marketCap d2 < 2500
       /\ ~ 0.01 < price d2
       /\ Scenario.foo = {| buyPrice := price d2;
                            targetMultiplier := TARGET_MULTIPLIER_MIN;
                            amount := 0.1 |}.
Proof.
  exact (cycle_position_origin Scenario.positive (Scenario.flat 0.005)
           (Scenario.post "$FOO to the moon!") initial "FOO" Scenario.foo
           (reachable_initial _ _) eq_refl).
Defined.

Lemma positions_as_opened_witness :
  targetMultiplier Scenario.foo = 2 /\ ~ 0.01 < buyPrice Scenario.foo.
Proof.
  pose proof (positions_as_opened Scenario.positive (Scenario.flat 0.005)
                (exec (runDailyOperations Scenario.positive
                         (Scenario.flat 0.005)
                         (Scenario.post "$FOO to the moon!")) initial)
                "FOO" Scenario.foo
                (reachable_cycle _ _ _ _ (reachable_initial _ _))
                eq_refl) as H.
  split; [exact (proj1 H) | exact (proj2 (proj2 (proj2 (proj2 H))))].
Defined.

Lemma tracked_symbols_are_tickers_witness : ticker "FOO".
Proof.
  exact (proj1
    (tracked_symbols_are_tickers Scenario.positive (Scenario.flat 0.005)
       (exec (runDailyOperations Scenario.positive (Scenario.flat 0.005)
                (Scenario.post "$FOO to the moon!")) initial)
       "FOO"
       (reachable_cycle _ _ _ _ (reachable_initial _ _))
       (or_introl eq_refl))).
Defined.

(** ** Sales *)

Lemma token_ticker s : capitals s -> Str.replaceDollar (Str.toLowerCase s) = Str.toLowerCase s.
Proof.
  induction s as [|x r IH]; [reflexivity |]. intros [Hx Hr].
  cbn [Str.toLowerCase Str.replaceDollar].
  destruct (Ascii.eqb_spec (Str.lowerChar x) "$") as [E | _].
  - exfalso. unfold Str.lowerChar in E. rewrite Hx in E.
    unfold Str.isUpper in Hx. apply andb_true_iff in Hx.
    destruct Hx as [H1 H2]. apply Nat.leb_le in H1, H2.
    apply (f_equal nat_of_ascii) in E.
    rewrite nat_ascii_embedding in E by lia. cbn in E. lia.
  - now rewrite IH.
Qed.

(** X16: the request for a ticker is the same with and without the [$]
    in front: the ticker in small letters.  So the lookups of the cycle, made
    with the stripped symbol, ask what a lookup of the candidate's coin would
    ask. *)
Theorem token_of_ticker (s : string) :
  ticker s ->
  token (String "$" s) = Str.toLowerCase s
  /\ token s = Str.toLowerCase s.
Proof.
  intros [_ Hcap]. unfold token. split; [| now apply token_ticker].
  cbn [Str.toLowerCase Str.replaceDollar]. reflexivity.
Qed.

Lemma token_of_ticker_witness :
  token "$FOO" = "foo"%string /\ token "FOO" = "foo"%string.
Proof.
  apply (token_of_ticker "FOO"). split; [discriminate | repeat split].
Defined.

Section Sales.

Variable market : Oracle.

(** X17: [sellCoin] sells exactly when there is data, the symbol has a
    position, and the price is at least the entry price times the
    multiplier.  Whatever it answers, it returns a boolean, sends one
    request, changes no other symbol's position and adds none. *)
Theorem sellCoin_decision (coin : string) (s : State) :
  (result (sellCoin market coin) s = Ok true
   <-> exists d p, answer market s coin = Some d
                   /\ JsMap.get (trackedCoins s) coin = Some p
                   /\ buyPrice p * targetMultiplier p <= price d)
  /\ (result (sellCoin market coin) s = Ok true
      \/ result (sellCoin market coin) s = Ok false)
  /\ requests (exec (sellCoin market coin) s)
     = (requests s ++ [token coin])%list
  /\ (forall other, other <> coin ->
        JsMap.get (trackedCoins (exec (sellCoin market coin) s)) other
        = JsMap.get (trackedCoins s) other)
  /\ (forall k, In k (JsMap.keys (trackedCoins (exec (sellCoin market coin) s)))
                -> In k (JsMap.keys (trackedCoins s))).
Proof.
  split; [| split; [| split; [apply sellCoin_requests | split]]].
  - unfold result. rewrite sellCoin_run.
    destruct (answer market s coin) as [d|].
    + destruct (JsMap.get (trackedCoins s) coin) as [p|].
      * destruct (Num.geb _ _) eqn:E; cbn [fst].
        -- apply geb_ge in E. split; [intros _; eauto | reflexivity].
        -- apply geb_lt in E. split; [discriminate |].
           intros [d' [p' [Hd [Hp Hle]]]]. injection Hd as <-.
           injection Hp as <-. exfalso. exact (Qlt_not_le _ _ E Hle).
      * split; [discriminate | intros [d' [p' [_ [Hp _]]]]; discriminate].
    + split; [discriminate | intros [d' [p' [Hd _]]]; discriminate].
  - destruct (sellCoin_returns market coin s) as [[|] [s' E]];
      unfold result; rewrite E; auto.
  - intros other Hne.
    destruct (sellCoin_tracked market coin s) as [E | E]; rewrite E;
      [reflexivity | now apply get_delete_other].
  - intros k.
    destruct (sellCoin_tracked market coin s) as [E | E]; rewrite E;
      [auto | apply keys_delete_incl].
Qed.

(** X18: an answer without a price reads as the price 0, and never sells
    a position that was bought at a positive price with a positive
    multiplier: the call returns [false] and map and count stay. *)
Theorem unpriced_answer_holds (coin : string) (s : State) (p : Position)
    (cap : option Q) :
  JsMap.get (trackedCoins s) coin = Some p ->
  0 < buyPrice p -> 0 < targetMultiplier p ->
  market (List.length (requests s)) (token coin)
  = Dex.Pairs (Some {| Dex.priceUsd := None; Dex.marketCap := cap |}) ->
  result (sellCoin market coin) s = Ok false
  /\ trackedCoins (exec (sellCoin market coin) s) = trackedCoins s
  /\ dailyOperations (exec (sellCoin market coin) s) = dailyOperations s.
Proof.
  intros Hget Hb Hm Hans. unfold result, exec. rewrite sellCoin_run.
  unfold answer. rewrite Hans, Hget. cbn [snapshot price orZero Dex.priceUsd].
  assert (E : Num.geb 0 (buyPrice p * targetMultiplier p) = false).
  { apply geb_lt. now apply Qmult_lt_0_compat. }
  rewrite E. repeat split.
Qed.

(** The sweep of a map in which every position has reached its target,
    and of one in which none has. *)
Lemma sweep_all_sold s :
  NoDup (JsMap.keys (trackedCoins s)) ->
  (forall n k p,
     (List.length (requests s) <= n)%nat ->
     JsMap.get (trackedCoins s) k = Some p ->
     exists d, market n (token k) = Dex.Pairs (Some d)
               /\ buyPrice p * targetMultiplier p <= price (snapshot d)) ->
  trackedCoins (exec (sweep market (JsMap.keys (trackedCoins s))) s) = [].
Proof.
  destruct s as [m ops reqs]. cbn [trackedCoins requests].
  revert ops reqs. induction m as [|[k v] r IH]; intros ops reqs Hnd Hall;
    [reflexivity |].
  cbn [JsMap.keys map fst]. rewrite exec_sweep_cons.
  assert (Hk : JsMap.get ((k, v) :: r) k = Some v).
  { cbn. now rewrite String.eqb_refl. }
  destruct (Hall (List.length reqs) k v (Nat.le_refl _) Hk) as [d [Hd Hle]].
  unfold exec at 2. rewrite sellCoin_run. unfold answer.
  cbn [trackedCoins requests]. rewrite Hd, Hk.
  apply geb_ge in Hle. rewrite Hle. cbn [snd JsMap.delete].
  rewrite String.eqb_refl. cbn [asked requests].
  inversion Hnd as [|? ? Hout Hr]; subst.
  apply (IH (S ops) (reqs ++ [token k])%list Hr).
  intros n k' p' Hn Hget. apply (Hall n k' p').
  - rewrite length_app in Hn. cbn in Hn. lia.
  - cbn. destruct (String.eqb_spec k' k) as [-> | _]; [| exact Hget].
    exfalso. apply Hout. exact (get_Some_keys _ _ _ Hget).
Qed.

Lemma sweep_none_sold todo s :
  (forall n k p d,
     (List.length (requests s) <= n)%nat ->
     JsMap.get (trackedCoins s) k = Some p ->
     market n (token k) = Dex.Pairs (Some d) ->
     price (snapshot d) < buyPrice p * targetMultiplier p) ->
  trackedCoins (exec (sweep market todo) s) = trackedCoins s
  /\ dailyOperations (exec (sweep market todo) s) = dailyOperations s.
Proof.
  revert s. induction todo as [|coin rest IH]; intros s Hall; [now split |].
  rewrite exec_sweep_cons.
  assert (E : exec (sellCoin market coin) s = asked coin s).
  { unfold exec. rewrite sellCoin_run. unfold answer.
    destruct (market _ _) as [|[d|]] eqn:Hd; [reflexivity | | reflexivity].
    destruct (JsMap.get (trackedCoins s) coin) as [p|] eqn:Hget;
      [| reflexivity].
    specialize (Hall _ coin p d (Nat.le_refl _) Hget Hd).
    apply geb_lt in Hall. now rewrite Hall. }
  rewrite E. apply (IH (asked coin s)).
  intros n k p d Hn. apply Hall. cbn [asked requests] in Hn.
  rewrite length_app in Hn. cbn in Hn. lia.
Qed.

(** X19: the sweep acts on every position and on the price alone.  If,
    from now on, every tracked symbol is quoted at its entry price times its
    multiplier or more, the sweep of the map empties it and counts one
    operation per position; if every quote is lower, or there is no data, it
    leaves map and count as they are. *)
Theorem sweep_by_price (s : State) :
  NoDup (JsMap.keys (trackedCoins s)) ->
  ((forall n k p,
      (List.length (requests s) <= n)%nat ->
      JsMap.get (trackedCoins s) k = Some p ->
      exists d, market n (token k) = Dex.Pairs (Some d)
                /\ buyPrice p * targetMultiplier p <= price (snapshot d)) ->
   trackedCoins (exec (sweep market (JsMap.keys (trackedCoins s))) s) = []
   /\ dailyOperations (exec (sweep market (JsMap.keys (trackedCoins s))) s)
      = (dailyOperations s + size (trackedCoins s))%nat)
  /\ ((forall n k p d,
         (List.length (requests s) <= n)%nat ->
         JsMap.get (trackedCoins s) k = Some p ->
         market n (token k) = Dex.Pairs (Some d) ->
         price (snapshot d) < buyPrice p * targetMultiplier p) ->
      trackedCoins (exec (sweep market (JsMap.keys (trackedCoins s))) s)
      = trackedCoins s
      /\ dailyOperations (exec (sweep market (JsMap.keys (trackedCoins s))) s)
         = dailyOperations s).
Proof.
  intros Hnd. split.
  - intros Hall. pose proof (sweep_all_sold s Hnd Hall) as He.
    split; [exact He |].
    pose proof (sweep_conserves market (JsMap.keys (trackedCoins s)) s) as Hc.
    rewrite He in Hc. cbn [size List.length] in Hc. lia.
  - apply sweep_none_sold.
Qed.

End Sales.

Lemma unpriced_answer_holds_witness :
  result (sellCoin Scenario.unpriced "FOO") Scenario.holdingFoo = Ok false
  /\ trackedCoins (exec (sellCoin Scenario.unpriced "FOO") Scenario.holdingFoo)
     = trackedCoins Scenario.holdingFoo.
Proof.
  pose proof (unpriced_answer_holds Scenario.unpriced "FOO"
                Scenario.holdingFoo Scenario.foo (Some 5000)
                eq_refl eq_refl eq_refl eq_refl) as H.
  split; [exact (proj1 H) | exact (proj1 (proj2 H))].
Defined.

Lemma sweep_by_price_witness :
  trackedCoins
    (exec (sweep (Scenario.flat 0.011)
             (JsMap.keys (trackedCoins Scenario.holdingFoo)))
          Scenario.holdingFoo) = []
  /\ dailyOperations
       (exec (sweep (Scenario.flat 0.011)
                (JsMap.keys (trackedCoins Scenario.holdingFoo)))
             Scenario.holdingFoo) = 2%nat.
Proof.
  assert (Hnd : NoDup (JsMap.keys (trackedCoins Scenario.holdingFoo))).
  { repeat constructor. simpl. tauto. }
  apply (proj1 (sweep_by_price (Scenario.flat 0.011) Scenario.holdingFoo Hnd)).
  intros n k p _ Hget.
  exists {| Dex.priceUsd := Some 0.011; Dex.marketCap := Some 5000 |}.
  split; [reflexivity |].
  cbn in Hget. destruct (String.eqb k "FOO"); [| discriminate].
  injection Hget as <-. vm_compute. discriminate.
Defined.
